(** * ready-for-docs-review: a shallow embedding and its verification

    The script [.github/actions-scripts/ready-for-docs-review.js] files a pull
    request or an issue on the docs-content review board: it reads the board's
    field definitions, derives size, feature, contributor type and author
    label, adds the item to the board and sets its fields in one request.

    The embedding follows the script top to bottom.  JavaScript values that
    may be [undefined] are [option]s, numbers are [Z] (every number the script
    handles is an integer far below 2^53, where JavaScript arithmetic is
    exact), strings are [string], and the asynchronous body of [run] is a
    state-and-error monad over the calls it issues.  A path is split on the
    slash, which is one byte in any encoding of the path. *)

From Stdlib Require Import ZArith List String Ascii Bool Sorted Lia.
Import ListNotations.

Local Open Scope string_scope.
Local Open Scope Z_scope.

(** ** JavaScript built-ins used by the script *)

Module Js.

(** A value that is either a string or [undefined]. *)
Definition value := option string.

(** [a === b] on such values. *)
Definition strict_eq (a b : value) : bool :=
  match a, b with
  | Some x, Some y => String.eqb x y
  | None, None => true
  | _, _ => false
  end.

(** [s.split(sep)] for a one-character separator: never an empty array. *)
Fixpoint split (sep : ascii) (s : string) : list string :=
  match s with
  | EmptyString => [EmptyString]
  | String c rest =>
      if Ascii.eqb c sep then EmptyString :: split sep rest
      else match split sep rest with
           | seg :: segs => String c seg :: segs
           | [] => [String c EmptyString]
           end
  end.

(** [a[i]]: [undefined] past the end. *)
Definition index (a : list string) (i : nat) : value := nth_error a i.

(** A [Set] of such values, in insertion order. *)
Definition set := list value.

Definition has (s : set) (v : value) : bool := existsb (strict_eq v) s.

(** [s.add(v)]: appended unless already present. *)
Definition add (s : set) (v : value) : set :=
  if has s v then s else (s ++ [v])%list.

(** How [Array.prototype.join] renders one element: [undefined] as the
    empty string. *)
Definition render (v : value) : string :=
  match v with
  | Some x => x
  | None => ""
  end.

(** [Array.from(s).join()]: the default separator is a comma. *)
Fixpoint join (a : list value) : string :=
  match a with
  | [] => ""
  | [v] => render v
  | v :: rest => render v ++ "," ++ join rest
  end.

(** [xs.filter(p)[0]]. *)
Definition first_match {A} (p : A -> bool) (xs : list A) : option A :=
  hd_error (filter p xs).

End Js.

(** ** The data the queries return *)

(** One changed file of a pull request. *)
Record FileNode := {
  additions : Z;
  deletions : Z;
  path : string
}.

(** [data.item]: [files] is present only on a pull request. *)
Record Item := {
  __typename : string;
  files : option (list FileNode)
}.

(** ** Derivation of size and feature (lines 87-123) *)

(** The four options of the board's Size field. *)
Module Size.
Inductive t := XS | S | M | L.
End Size.

(** The [if] chain of lines 111-119 over the four option identifiers. *)
Definition sizeOf {A} (sizeXS sizeS sizeM sizeL : A) (numFiles numChanges : Z) : A :=
  if (numFiles <? 5) && (numChanges <? 10) then sizeXS
  else if (numFiles <? 10) && (numChanges <? 50) then sizeS
  else if (numFiles <? 10) && (numChanges <? 250) then sizeM
  else sizeL.

Definition sizeCategory : Z -> Z -> Size.t := sizeOf Size.XS Size.S Size.M Size.L.

(** The loop state: [numFiles], [numChanges], [features]. *)
Record Tally := {
  numFiles : Z;
  numChanges : Z;
  features : Js.set
}.

(** The body of the [forEach] callback (lines 99-107). *)
Definition visit (t : Tally) (node : FileNode) : Tally :=
  let numFiles := numFiles t + 1 in
  let numChanges := numChanges t + additions node in
  let numChanges := numChanges + deletions node in
  let pathComponents := Js.split "/" (path node) in
  let features :=
    if Js.strict_eq (Js.index pathComponents 0) (Some "content")
    then Js.add (features t) (Js.index pathComponents 1)
    else features t in
  {| numFiles := numFiles; numChanges := numChanges; features := features |}.

Definition tally (nodes : list FileNode) : Tally :=
  fold_left visit nodes {| numFiles := 0; numChanges := 0; features := [] |}.

(** [feature] and [sizeType] for a pull request with these files. *)
Definition featureOf (nodes : list FileNode) : string :=
  Js.join (features (tally nodes)).

Definition sizeTypeOf {A} (sizeXS sizeS sizeM sizeL : A) (nodes : list FileNode) : A :=
  let t := tally nodes in
  sizeOf sizeXS sizeS sizeM sizeL (numFiles t) (numChanges t).

(** Lines 88-123 with the initial value of [sizeType] made a parameter:
    [None] is the [TypeError] of reading [nodes] off an absent [files]. *)
Definition deriveFrom {A} (initial : A) (sizeXS sizeS sizeM sizeL : A) (item : Item)
  : option (string * A) :=
  if String.eqb (__typename item) "PullRequest" then
    match files item with
    | Some nodes => Some (featureOf nodes, sizeTypeOf sizeXS sizeS sizeM sizeL nodes)
    | None => None
    end
  else Some ("", initial).

(** Line 89 starts [sizeType] at [sizeS]. *)
Definition derive {A} (sizeXS sizeS sizeM sizeL : A) (item : Item) : option (string * A) :=
  deriveFrom sizeS sizeXS sizeS sizeM sizeL item.

(** ** Board metadata (the first query, lines 14-60) *)

Record SingleSelectOption := {
  optionId : string;
  optionName : string
}.

(** A node of [fields.nodes].  The query selects [id] and [name] on a plain
    field, [options] besides on a single-select field, and nothing on a field
    of any other type, which arrives as an empty object. *)
Inductive FieldNode :=
| ProjectV2Field (id name : string)
| ProjectV2SingleSelectField (id name : string) (options : list SingleSelectOption)
| OtherField.

Definition nodeName (f : FieldNode) : Js.value :=
  match f with
  | ProjectV2Field _ name | ProjectV2SingleSelectField _ name _ => Some name
  | OtherField => None
  end.

Definition nodeId (f : FieldNode) : Js.value :=
  match f with
  | ProjectV2Field id _ | ProjectV2SingleSelectField id _ _ => Some id
  | OtherField => None
  end.

Definition nodeOptions (f : FieldNode) : list SingleSelectOption :=
  match f with
  | ProjectV2SingleSelectField _ _ options => options
  | _ => []
  end.

(** [data]: [projectID] is [data.organization.projectV2.id], [nodes] is
    [data.organization.projectV2.fields.nodes]. *)
Record Data := {
  projectID : string;
  nodes : list FieldNode;
  item : Item
}.

(** ** Failures *)

Inductive Error :=
| FieldNotFound (fieldName : string)
| SingleSelectNotFound (singleSelectName fieldName : string)
| TypeError
| RequestFailed.

Inductive Result (A : Type) :=
| Ok (a : A)
| Err (e : Error).
Arguments Ok {A} a.
Arguments Err {A} e.

(** ** Field and option lookup *)

Definition named (name : string) (f : FieldNode) : bool :=
  Js.strict_eq (nodeName f) (Some name).

Definition optionNamed (name : string) (o : SingleSelectOption) : bool :=
  String.eqb (optionName o) name.

(** Modelled from the spec: [findFieldID] is imported from [./projects.js],
    which is not among the sources.  Section 4.2: it returns the identifier of
    the field whose name exactly matches [fieldName] among the fetched field
    list, and signals failure when no field matches. *)
Definition findFieldID (fieldName : string) (data : Data) : Result string :=
  match find (named fieldName) (nodes data) with
  | Some f =>
      match nodeId f with
      | Some id => Ok id
      | None => Err (FieldNotFound fieldName)
      end
  | None => Err (FieldNotFound fieldName)
  end.

(** Modelled from the spec: [findSingleSelectID] is imported from
    [./projects.js], which is not among the sources.  Section 4.2: it first
    locates the field by name, then returns the identifier of the option whose
    name exactly matches [singleSelectName], and signals failure when either
    search finds nothing. *)
Definition findSingleSelectID (singleSelectName fieldName : string) (data : Data)
  : Result string :=
  match find (named fieldName) (nodes data) with
  | Some f =>
      match find (optionNamed singleSelectName) (nodeOptions f) with
      | Some o => Ok (optionId o)
      | None => Err (SingleSelectNotFound singleSelectName fieldName)
      end
  | None => Err (FieldNotFound fieldName)
  end.

(** Sequencing of calls that may throw. *)
Definition andThen {A B} (r : Result A) (k : A -> Result B) : Result B :=
  match r with
  | Ok a => k a
  | Err e => Err e
  end.

Declare Scope result_scope.
Delimit Scope result_scope with result.
Notation "x <- r ;; k" := (andThen r (fun x => k))
  (at level 100, r at next level, right associativity) : result_scope.

(** The fifteen constants of lines 66-82. *)
Record IDs := {
  datePostedID : string;
  reviewDueDateID : string;
  statusID : string;
  featureID : string;
  contributorTypeID : string;
  sizeTypeID : string;
  authorID : string;
  readyForReviewID : string;
  hubberTypeID : string;
  docsMemberTypeID : string;
  osContributorTypeID : string;
  sizeXS : string;
  sizeS : string;
  sizeM : string;
  sizeL : string
}.

(** Lines 66-82: the lookups in the order the script makes them; the first
    one that throws ends them. *)
Definition lookupIDs (data : Data) : Result IDs :=
  (datePostedID <- findFieldID "Date posted" data ;;
   reviewDueDateID <- findFieldID "Review due date" data ;;
   statusID <- findFieldID "Status" data ;;
   featureID <- findFieldID "Feature" data ;;
   contributorTypeID <- findFieldID "Contributor type" data ;;
   sizeTypeID <- findFieldID "Size" data ;;
   authorID <- findFieldID "Contributor" data ;;
   readyForReviewID <- findSingleSelectID "Ready for review" "Status" data ;;
   hubberTypeID <- findSingleSelectID "Hubber or partner" "Contributor type" data ;;
   docsMemberTypeID <- findSingleSelectID "Docs team" "Contributor type" data ;;
   osContributorTypeID <- findSingleSelectID "OS contributor" "Contributor type" data ;;
   sizeXS <- findSingleSelectID "XS" "Size" data ;;
   sizeS <- findSingleSelectID "S" "Size" data ;;
   sizeM <- findSingleSelectID "M" "Size" data ;;
   sizeL <- findSingleSelectID "L" "Size" data ;;
   Ok {| datePostedID := datePostedID;
         reviewDueDateID := reviewDueDateID;
         statusID := statusID;
         featureID := featureID;
         contributorTypeID := contributorTypeID;
         sizeTypeID := sizeTypeID;
         authorID := authorID;
         readyForReviewID := readyForReviewID;
         hubberTypeID := hubberTypeID;
         docsMemberTypeID := docsMemberTypeID;
         osContributorTypeID := osContributorTypeID;
         sizeXS := sizeXS;
         sizeS := sizeS;
         sizeM := sizeM;
         sizeL := sizeL |})%result.

(** ** Contribution history (the second query, lines 129-160) *)

(** An entry of [pullRequestContributionsByRepository] or of
    [issueContributionsByRepository]: [contributions.totalCount] and
    [repository.nameWithOwner]. *)
Record ContributionsByRepository := {
  totalCount : Z;
  nameWithOwner : string
}.

Record ContributionsCollection := {
  pullRequestContributionsByRepository : list ContributionsByRepository;
  issueContributionsByRepository : list ContributionsByRepository
}.

Definition inDocs (entry : ContributionsByRepository) : bool :=
  String.eqb (nameWithOwner entry) "github/docs".

(** Lines 161-165 and 167-171: the count of the first entry for the
    repository, 0 when there is none. *)
Definition docsCount (entries : list ContributionsByRepository) : Z :=
  match Js.first_match inDocs entries with
  | Some docsData => totalCount docsData
  | None => 0
  end.

Definition prCount (c : ContributionsCollection) : Z :=
  docsCount (pullRequestContributionsByRepository c).

Definition issueCount (c : ContributionsCollection) : Z :=
  docsCount (issueContributionsByRepository c).

(** Lines 173-175: [true], or left [undefined], which is falsy. *)
Definition firstTimeContributorOf (c : ContributionsCollection) : bool :=
  prCount c + issueCount c <=? 1.

(** ** The process environment *)

Record Env := {
  ITEM_NODE_ID : Js.value;
  ORGANIZATION : Js.value;
  PROJECT_NUMBER : Js.value;
  TOKEN : Js.value;
  REPO : Js.value;
  AUTHOR_LOGIN : Js.value
}.

(** [process.env.REPO === 'github/docs'] *)
Definition isOpenSourceRepo (env : Env) : bool :=
  Js.strict_eq (REPO env) (Some "github/docs").

(** Line 177. *)
Definition turnaroundOf (env : Env) : Z :=
  if isOpenSourceRepo env then 3 else 2.

(** Line 181. *)
Definition authorOf (env : Env) (firstTimeContributor : bool) : Js.value :=
  if firstTimeContributor then Some "first time contributor" else AUTHOR_LOGIN env.

(** ** The calls the script issues, and the board they act on *)

(** The variables of the update request (lines 201-216), under the names
    the request gives them. *)
Module Variables.
Record t := {
  project : string;
  statusID : string;
  statusValueID : string;
  datePostedID : string;
  reviewDueDateID : string;
  contributorTypeID : string;
  contributorType : string;
  sizeTypeID : string;
  sizeType : string;
  featureID : string;
  authorID : string
}.
End Variables.

(** The request that [generateUpdateProjectV2ItemFieldMutation] returns, kept
    as the arguments it was generated from (lines 179-184) and the day on
    which it was generated.  Dates are day numbers. *)
Record Mutation := {
  mutationItem : string;
  author : Js.value;
  turnaround : Z;
  feature : string;
  generated : Z
}.

(** Modelled from the spec: [generateUpdateProjectV2ItemFieldMutation] is
    imported from [./projects.js], which is not among the sources.  Section
    4.7: it generates, from the item, the author, the turnaround and the
    feature, the one request that sets the fields, with now as the date
    posted; what the request writes is [assignments] below. *)
Definition generateUpdateProjectV2ItemFieldMutation
  (now : Z) (item : string) (author : Js.value) (turnaround : Z) (feature : string)
  : Mutation :=
  {| mutationItem := item;
     author := author;
     turnaround := turnaround;
     feature := feature;
     generated := now |}.

Inductive Call :=
| BoardQuery (id organization projectNumber : Js.value)
| AddItemToProject (item : Js.value) (project : string)
| ContributionsQuery (author : Js.value)
| IsDocsTeamMember (login : Js.value)
| IsGitHubOrgMember (login : Js.value)
| UpdateFields (mutation : Mutation) (variables : Variables.t).

(** What the other side answers to each call, and its clock.  The script
    passes [PROJECT_NUMBER] through [parseInt]; the answer is given for the
    text it read. *)
Record Remote := {
  board : Js.value -> Js.value -> Js.value -> Result Data;
  addItem : Js.value -> string -> Result string;
  contributions : Js.value -> Result ContributionsCollection;
  docsTeamMember : Js.value -> Result bool;
  orgMember : Js.value -> Result bool;
  update : Mutation -> Variables.t -> Result unit;
  now : Z
}.

Inductive FieldValue :=
| SingleSelect (optionId : string)
| Date (day : Z)
| Text (text : Js.value).

(** An item of the project: the node it was made from and the values of its
    fields, by field identifier; [[]] while none is set. *)
Record ProjectItem := {
  projectItemId : string;
  content : Js.value;
  fieldValues : list (string * FieldValue)
}.

(** Modelled from the spec: what the request generated by
    [generateUpdateProjectV2ItemFieldMutation] writes; the function is imported
    from [./projects.js], which is not among the sources.  Section 4.7: Status
    to Ready for review, Date posted to now, Review due date to now plus
    [turnaround] days, Contributor type, Size, Feature and Contributor. *)
Definition assignments (m : Mutation) (v : Variables.t) : list (string * FieldValue) :=
  [ (Variables.statusID v, SingleSelect (Variables.statusValueID v));
    (Variables.datePostedID v, Date (generated m));
    (Variables.reviewDueDateID v, Date (generated m + turnaround m));
    (Variables.contributorTypeID v, SingleSelect (Variables.contributorType v));
    (Variables.sizeTypeID v, SingleSelect (Variables.sizeType v));
    (Variables.featureID v, Text (Some (feature m)));
    (Variables.authorID v, Text (author m)) ].

Inductive Line :=
| Message (text : string)
| ErrorLine (error : Error).

(** The calls issued so far (oldest first), the console, and the project. *)
Record World := {
  calls : list Call;
  console : list Line;
  items : list ProjectItem
}.

Definition issued (c : Call) (w : World) : World :=
  {| calls := (calls w ++ [c])%list; console := console w; items := items w |}.

Definition logged (l : Line) (w : World) : World :=
  {| calls := calls w; console := (console w ++ [l])%list; items := items w |}.

(** Modelled from the spec: a successful add-item mutation puts a new project
    item, with no field set, on the board and returns its identifier
    (section 6). *)
Definition added (newItemID : string) (node : Js.value) (w : World) : World :=
  {| calls := calls w; console := console w;
     items := (items w ++ [{| projectItemId := newItemID; content := node;
                              fieldValues := [] |}])%list |}.

Definition assign (m : Mutation) (v : Variables.t) (i : ProjectItem) : ProjectItem :=
  if String.eqb (projectItemId i) (mutationItem m)
  then {| projectItemId := projectItemId i; content := content i;
          fieldValues := assignments m v |}
  else i.

(** Modelled from the spec: a successful update request sets the fields of
    the item it names (section 4.7). *)
Definition updated (m : Mutation) (v : Variables.t) (w : World) : World :=
  {| calls := calls w; console := console w; items := map (assign m v) (items w) |}.

(** ** The monad of [run]: state over [World], with failure *)

Definition M (A : Type) : Type := World -> World * Result A.

Definition ret {A} (a : A) : M A := fun w => (w, Ok a).

Definition throw {A} (e : Error) : M A := fun w => (w, Err e).

Definition bind {A B} (m : M A) (k : A -> M B) : M B :=
  fun w =>
    match m w with
    | (w', Ok a) => k a w'
    | (w', Err e) => (w', Err e)
    end.

Declare Scope run_scope.
Delimit Scope run_scope with run.
Notation "x <- m ;; k" := (bind m (fun x => k))
  (at level 100, m at next level, right associativity) : run_scope.
Notation "m ;; k" := (bind m (fun _ => k))
  (at level 100, right associativity) : run_scope.
Local Open Scope run_scope.

(** A synchronous call that may throw. *)
Definition lift {A} (r : Result A) : M A := fun w => (w, r).

(** An awaited call: it is recorded, then its answer is returned or thrown;
    [effect] is what a successful call did to the project. *)
Definition await {A} (c : Call) (answer : Result A) (effect : A -> World -> World) : M A :=
  fun w =>
    match answer with
    | Ok a => (effect a (issued c w), Ok a)
    | Err e => (issued c w, Err e)
    end.

Definition query {A} (c : Call) (answer : Result A) : M A :=
  await c answer (fun _ w => w).

Definition log (text : string) : M unit := fun w => (logged (Message text) w, Ok tt).

(** ** The script *)

Section Run.

Variable env : Env.
Variable remote : Remote.

(** Modelled from the spec: [addItemToProject] is imported from
    [./projects.js], which is not among the sources.  Section 6: one
    add-item mutation, given the node and the project, returning the new
    project item's identifier. *)
Definition addItemToProject (node : Js.value) (project : string) : M string :=
  await (AddItemToProject node project) (addItem remote node project)
        (fun newItemID => added newItemID node).

(** The two membership lookups of [./projects.js]: calls whose answers
    are the other side's. *)
Definition isDocsTeamMember (login : Js.value) : M bool :=
  query (IsDocsTeamMember login) (docsTeamMember remote login).

Definition isGitHubOrgMember (login : Js.value) : M bool :=
  query (IsGitHubOrgMember login) (orgMember remote login).

(** Lines 87-123. *)
Definition featureAndSize (ids : IDs) (data : Data) : M (string * string) :=
  match derive (sizeXS ids) (sizeS ids) (sizeM ids) (sizeL ids) (item data) with
  | Some r => ret r
  | None => throw TypeError
  end.

(** Lines 127-176: [false] stands for the variable left [undefined]. *)
Definition firstTimeContributor : M bool :=
  if isOpenSourceRepo env then
    contributorData <- query (ContributionsQuery (AUTHOR_LOGIN env))
                             (contributions remote (AUTHOR_LOGIN env)) ;;
    ret (firstTimeContributorOf contributorData)
  else ret false.

(** Lines 187-197. *)
Definition resolveContributorType {A} (docsMemberTypeID hubberTypeID osContributorTypeID : A)
  : M A :=
  docs <- isDocsTeamMember (AUTHOR_LOGIN env) ;;
  if docs : bool then ret docsMemberTypeID
  else
    org <- isGitHubOrgMember (AUTHOR_LOGIN env) ;;
    if org : bool then ret hubberTypeID
    else if isOpenSourceRepo env then ret osContributorTypeID
    else ret hubberTypeID.

(** Lines 199-216. *)
Definition variablesOf (data : Data) (ids : IDs) (contributorType sizeType : string)
  : Variables.t :=
  {| Variables.project := projectID data;
     Variables.statusID := statusID ids;
     Variables.statusValueID := readyForReviewID ids;
     Variables.datePostedID := datePostedID ids;
     Variables.reviewDueDateID := reviewDueDateID ids;
     Variables.contributorTypeID := contributorTypeID ids;
     Variables.contributorType := contributorType;
     Variables.sizeTypeID := sizeTypeID ids;
     Variables.sizeType := sizeType;
     Variables.featureID := featureID ids;
     Variables.authorID := authorID ids |}.

Definition run : M string :=
  data <- query (BoardQuery (ITEM_NODE_ID env) (ORGANIZATION env) (PROJECT_NUMBER env))
                (board remote (ITEM_NODE_ID env) (ORGANIZATION env) (PROJECT_NUMBER env)) ;;
  ids <- lift (lookupIDs data) ;;
  newItemID <- addItemToProject (ITEM_NODE_ID env) (projectID data) ;;
  fs <- featureAndSize ids data ;;
  let feature := fst fs in
  let sizeType := snd fs in
  firstTime <- firstTimeContributor ;;
  let turnaround := turnaroundOf env in
  let updateProjectV2ItemMutation :=
    generateUpdateProjectV2ItemFieldMutation
      (now remote) newItemID (authorOf env firstTime) turnaround feature in
  contributorType <-
    resolveContributorType (docsMemberTypeID ids) (hubberTypeID ids) (osContributorTypeID ids) ;;
  log ("Populating fields for item: " ++ newItemID) ;;
  let variables := variablesOf data ids contributorType sizeType in
  await (UpdateFields updateProjectV2ItemMutation variables)
        (update remote updateProjectV2ItemMutation variables)
        (fun _ => updated updateProjectV2ItemMutation variables) ;;
  log "Done populating fields for item" ;;
  ret newItemID.

(** Lines 222-225: a failure is printed and the process exits with 1;
    otherwise it ends with 0. *)
Definition main (w : World) : World * Z :=
  match run w with
  | (w', Ok _) => (w', 0)
  | (w', Err e) => (logged (ErrorLine e) w', 1)
  end.

End Run.

Definition start : World := {| calls := []; console := []; items := [] |}.

(** ** Vocabulary of the statements *)

(** What one file contributes to [features]: the second segment of a path
    whose first segment is [content], nothing otherwise. *)
Definition contentSegment (node : FileNode) : option Js.value :=
  let pathComponents := Js.split "/" (path node) in
  if Js.strict_eq (Js.index pathComponents 0) (Some "content")
  then Some (Js.index pathComponents 1)
  else None.

Definition changes (nodes : list FileNode) : Z :=
  fold_right (fun node acc => additions node + deletions node + acc) 0 nodes.

(** The option identifier that stands for a category. *)
Definition pick {A} (sizeXS sizeS sizeM sizeL : A) (c : Size.t) : A :=
  match c with
  | Size.XS => sizeXS
  | Size.S => sizeS
  | Size.M => sizeM
  | Size.L => sizeL
  end.

(** The sum of the total counts of the entries for the repository, as the
    specification words the count of prior contributions. *)
Definition contributionTotal (entries : list ContributionsByRepository) : Z :=
  fold_right Z.add 0 (map totalCount (filter inDocs entries)).

(** The field names and the option names (each with its field) that the
    script looks up. *)
Definition requiredFields : list string :=
  [ "Date posted"; "Review due date"; "Status"; "Feature"; "Contributor type"; "Size";
    "Contributor" ].

Definition requiredOptions : list (string * string) :=
  [ ("Ready for review", "Status"); ("Hubber or partner", "Contributor type");
    ("Docs team", "Contributor type"); ("OS contributor", "Contributor type");
    ("XS", "Size"); ("S", "Size"); ("M", "Size"); ("L", "Size") ].

(** Some fetched field bears the name. *)
Definition hasField (name : string) (data : Data) : bool :=
  existsb (named name) (nodes data).

(** The field found under [fieldName] offers an option of that name. *)
Definition offers (optionName fieldName : string) (data : Data) : bool :=
  match find (named fieldName) (nodes data) with
  | Some f => existsb (optionNamed optionName) (nodeOptions f)
  | None => false
  end.

(** Some fetched field offers an option of that name. *)
Definition hasOption (optionName : string) (data : Data) : bool :=
  existsb (fun f => existsb (optionNamed optionName) (nodeOptions f)) (nodes data).

(** The place of a call in the script. *)
Definition kind (c : Call) : nat :=
  match c with
  | BoardQuery _ _ _ => 0
  | AddItemToProject _ _ => 1
  | ContributionsQuery _ => 2
  | IsDocsTeamMember _ => 3
  | IsGitHubOrgMember _ => 4
  | UpdateFields _ _ => 5
  end.

(** The calls between the add-item mutation and the update of a run that
    reaches the update. *)
Definition lookupCalls (env : Env) (remote : Remote) : list Call :=
  ((if isOpenSourceRepo env then [ContributionsQuery (AUTHOR_LOGIN env)] else [])
   ++ IsDocsTeamMember (AUTHOR_LOGIN env)
   :: match docsTeamMember remote (AUTHOR_LOGIN env) with
      | Ok false => [IsGitHubOrgMember (AUTHOR_LOGIN env)]
      | _ => []
      end)%list.

(** The sizes in increasing order. *)
Definition rank (c : Size.t) : nat :=
  match c with
  | Size.XS => 0
  | Size.S => 1
  | Size.M => 2
  | Size.L => 3
  end.

(** The segments of a path put together again around the separator. *)
Fixpoint rejoin (sep : ascii) (segments : list string) : string :=
  match segments with
  | [] => ""
  | [segment] => segment
  | segment :: rest => segment ++ String sep (rejoin sep rest)
  end.

Fixpoint occurs (c : ascii) (s : string) : bool :=
  match s with
  | EmptyString => false
  | String c' rest => Ascii.eqb c' c || occurs c rest
  end.

(** A file that is not under [content]. *)
Definition outsideContent (node : FileNode) : Prop :=
  Js.index (Js.split "/" (path node)) 0 <> Some "content".

(** Whether the other side answered a call, rather than failing it. *)
Definition succeeded {A} (r : Result A) : bool :=
  match r with
  | Ok _ => true
  | Err _ => false
  end.

Definition answered (remote : Remote) (c : Call) : bool :=
  match c with
  | BoardQuery id organization projectNumber =>
      succeeded (board remote id organization projectNumber)
  | AddItemToProject node project => succeeded (addItem remote node project)
  | ContributionsQuery login => succeeded (contributions remote login)
  | IsDocsTeamMember login => succeeded (docsTeamMember remote login)
  | IsGitHubOrgMember login => succeeded (orgMember remote login)
  | UpdateFields m v => succeeded (update remote m v)
  end.

(** The item as the add-item mutation leaves it. *)
Definition unset (newItemID : string) (node : Js.value) : ProjectItem :=
  {| projectItemId := newItemID; content := node; fieldValues := [] |}.

(** ** A concrete board, for the examples *)

Module Sample.

Definition selectOption (id name : string) : SingleSelectOption :=
  {| optionId := id; optionName := name |}.

Definition fields : list FieldNode :=
  [ ProjectV2Field "F_title" "Title";
    ProjectV2SingleSelectField "F_status" "Status"
      [selectOption "O_triage" "Triage"; selectOption "O_ready" "Ready for review"];
    ProjectV2Field "F_posted" "Date posted";
    ProjectV2Field "F_due" "Review due date";
    OtherField;
    ProjectV2Field "F_feature" "Feature";
    ProjectV2SingleSelectField "F_ctype" "Contributor type"
      [selectOption "O_docs" "Docs team"; selectOption "O_hubber" "Hubber or partner";
       selectOption "O_os" "OS contributor"];
    ProjectV2SingleSelectField "F_size" "Size"
      [selectOption "O_xs" "XS"; selectOption "O_s" "S"; selectOption "O_m" "M";
       selectOption "O_l" "L"];
    ProjectV2Field "F_author" "Contributor" ].

Definition changed (a d : Z) (p : string) : FileNode :=
  {| additions := a; deletions := d; path := p |}.

Definition pullRequest (nodes : list FileNode) : Item :=
  {| __typename := "PullRequest"; files := Some nodes |}.

Definition issue : Item := {| __typename := "Issue"; files := None |}.

Definition threeFiles : list FileNode :=
  [ changed 30 2 "content/actions/a.md"; changed 4 4 "content/actions/b.md";
    changed 1 0 "data/x.yml" ].

Definition data (fields : list FieldNode) (item : Item) : Data :=
  {| projectID := "PVT_1"; nodes := fields; item := item |}.

Definition env (repo : string) : Env :=
  {| ITEM_NODE_ID := Some "PR_7"; ORGANIZATION := Some "github";
     PROJECT_NUMBER := Some "2936"; TOKEN := Some "t";
     REPO := Some repo; AUTHOR_LOGIN := Some "octocat" |}.

Definition entry (n : Z) (repo : string) : ContributionsByRepository :=
  {| totalCount := n; nameWithOwner := repo |}.

Definition history (prs issues : list ContributionsByRepository) : ContributionsCollection :=
  {| pullRequestContributionsByRepository := prs;
     issueContributionsByRepository := issues |}.

(** A remote on which every call succeeds, but the update when [updates]
    is an error. *)
Definition remote (d : Data) (c : ContributionsCollection) (docs org : bool)
  (updates : Result unit) : Remote :=
  {| board := fun _ _ _ => Ok d;
     addItem := fun _ _ => Ok "PVTI_9";
     contributions := fun _ => Ok c;
     docsTeamMember := fun _ => Ok docs;
     orgMember := fun _ => Ok org;
     update := fun _ _ => updates;
     now := 100 |}.

Definition firstPR : ContributionsCollection :=
  history [entry 7 "octo/hello"; entry 1 "github/docs"] [entry 3 "octo/hello"].

Definition regular : ContributionsCollection :=
  history [entry 1 "github/docs"] [entry 1 "github/docs"].

(** Without the Size field. *)
Definition fieldsWithoutSize : list FieldNode :=
  filter (fun f => negb (named "Size" f)) fields.

End Sample.

(** Remotes on which one call fails. *)
Module Faults.

Definition remote (b : Result Data) (a : Result string) (c : Result ContributionsCollection)
  (docs org : Result bool) (u : Result unit) : Remote :=
  {| board := fun _ _ _ => b;
     addItem := fun _ _ => a;
     contributions := fun _ => c;
     docsTeamMember := fun _ => docs;
     orgMember := fun _ => org;
     update := fun _ _ => u;
     now := 100 |}.

Definition issueData : Data := Sample.data Sample.fields Sample.issue.

Definition noBoard : Remote :=
  remote (Err RequestFailed) (Ok "PVTI_9") (Ok Sample.regular) (Ok false) (Ok false) (Ok tt).

Definition noAdd : Remote :=
  remote (Ok issueData) (Err RequestFailed) (Ok Sample.regular) (Ok false) (Ok false) (Ok tt).

Definition noOrg : Remote :=
  remote (Ok issueData) (Ok "PVTI_9") (Ok Sample.regular) (Ok false) (Err RequestFailed)
         (Ok tt).

Definition allFine : Remote :=
  remote (Ok issueData) (Ok "PVTI_9") (Ok Sample.regular) (Ok false) (Ok true) (Ok tt).

(** A pull request that came without its files. *)
Definition noFiles : Remote :=
  remote (Ok (Sample.data Sample.fields {| __typename := "PullRequest"; files := None |}))
         (Ok "PVTI_9") (Ok Sample.regular) (Ok false) (Ok false) (Ok tt).

End Faults.

Example run_pull_request :
  main (Sample.env "github/docs")
       (Sample.remote (Sample.data Sample.fields (Sample.pullRequest Sample.threeFiles))
                      Sample.firstPR false false (Ok tt))
       start
  = ({| calls :=
          [ BoardQuery (Some "PR_7") (Some "github") (Some "2936");
            AddItemToProject (Some "PR_7") "PVT_1";
            ContributionsQuery (Some "octocat");
            IsDocsTeamMember (Some "octocat");
            IsGitHubOrgMember (Some "octocat");
            UpdateFields
              {| mutationItem := "PVTI_9"; author := Some "first time contributor";
                 turnaround := 3; feature := "actions"; generated := 100 |}
              {| Variables.project := "PVT_1"; Variables.statusID := "F_status";
                 Variables.statusValueID := "O_ready";
                 Variables.datePostedID := "F_posted"; Variables.reviewDueDateID := "F_due";
                 Variables.contributorTypeID := "F_ctype"; Variables.contributorType := "O_os";
                 Variables.sizeTypeID := "F_size"; Variables.sizeType := "O_s";
                 Variables.featureID := "F_feature"; Variables.authorID := "F_author" |} ];
        console :=
          [ Message "Populating fields for item: PVTI_9";
            Message "Done populating fields for item" ];
        items :=
          [ {| projectItemId := "PVTI_9"; content := Some "PR_7";
               fieldValues :=
                 [ ("F_status", SingleSelect "O_ready"); ("F_posted", Date 100);
                   ("F_due", Date 103); ("F_ctype", SingleSelect "O_os");
                   ("F_size", SingleSelect "O_s"); ("F_feature", Text (Some "actions"));
                   ("F_author", Text (Some "first time contributor")) ] |} ] |}, 0).
Proof. vm_compute. reflexivity. Qed.

Example run_issue_elsewhere :
  let w := fst (main (Sample.env "github/docs-internal")
                     (Sample.remote (Sample.data Sample.fields Sample.issue)
                                    Sample.regular true true (Err RequestFailed))
                     start) in
  calls w =
    [ BoardQuery (Some "PR_7") (Some "github") (Some "2936");
      AddItemToProject (Some "PR_7") "PVT_1";
      IsDocsTeamMember (Some "octocat");
      UpdateFields
        {| mutationItem := "PVTI_9"; author := Some "octocat";
           turnaround := 2; feature := ""; generated := 100 |}
        {| Variables.project := "PVT_1"; Variables.statusID := "F_status";
           Variables.statusValueID := "O_ready";
           Variables.datePostedID := "F_posted"; Variables.reviewDueDateID := "F_due";
           Variables.contributorTypeID := "F_ctype"; Variables.contributorType := "O_docs";
           Variables.sizeTypeID := "F_size"; Variables.sizeType := "O_s";
           Variables.featureID := "F_feature"; Variables.authorID := "F_author" |} ]
  /\ console w = [ Message "Populating fields for item: PVTI_9"; ErrorLine RequestFailed ]
  /\ items w = [ {| projectItemId := "PVTI_9"; content := Some "PR_7"; fieldValues := [] |} ].
Proof. vm_compute. repeat split. Qed.

Example run_without_size :
  main (Sample.env "github/docs")
       (Sample.remote (Sample.data Sample.fieldsWithoutSize Sample.issue)
                      Sample.regular true true (Ok tt))
       start
  = ({| calls := [ BoardQuery (Some "PR_7") (Some "github") (Some "2936") ];
        console := [ ErrorLine (FieldNotFound "Size") ];
        items := [] |}, 1).
Proof. vm_compute. reflexivity. Qed.

(** * Verification *)

(** ** Facts about the built-ins *)

Lemma strict_eq_iff (a b : Js.value) : Js.strict_eq a b = true <-> a = b.
Proof.
  destruct a as [x|], b as [y|]; simpl; try (split; congruence).
  rewrite String.eqb_eq. split; congruence.
Qed.

Lemma has_iff (s : Js.set) (v : Js.value) : Js.has s v = true <-> In v s.
Proof.
  unfold Js.has. rewrite existsb_exists. split.
  - intros [x [Hx Heq]]. apply strict_eq_iff in Heq. now subst.
  - intros H. exists v. split; [assumption | now apply strict_eq_iff].
Qed.

Lemma add_present (s : Js.set) (v : Js.value) : In v s -> Js.add s v = s.
Proof.
  intros H. unfold Js.add. apply has_iff in H. now rewrite H.
Qed.

Lemma In_add (s : Js.set) (x v : Js.value) : In v (Js.add s x) <-> In v s \/ v = x.
Proof.
  unfold Js.add. destruct (Js.has s x) eqn:E.
  - apply has_iff in E. split; [now left | intros [H | ->]; assumption].
  - rewrite in_app_iff. simpl. split.
    + intros [H | [H | []]]; [now left | now right].
    + intros [H | ->]; [now left | right; now left].
Qed.

Lemma NoDup_add (s : Js.set) (x : Js.value) : NoDup s -> NoDup (Js.add s x).
Proof.
  intros H. unfold Js.add. destruct (Js.has s x) eqn:E; [assumption |].
  assert (Hx : ~ In x s) by (rewrite <- has_iff, E; discriminate).
  clear E. induction s as [| y s IH]; simpl.
  - constructor; [intros [] | constructor].
  - inversion H as [| ? ? Hy Hs]; subst. constructor.
    + rewrite in_app_iff. simpl. intros [Hin | [-> | []]]; [now apply Hy |].
      apply Hx. now left.
    + apply IH; [assumption |]. intros Hin. apply Hx. now right.
Qed.

Lemma split_nonempty (sep : ascii) (s : string) : Js.split sep s <> [].
Proof.
  destruct s as [| c rest]; simpl; [discriminate |].
  destruct (Ascii.eqb c sep); [discriminate |].
  destruct (Js.split sep rest); discriminate.
Qed.

(** [join] cannot tell [undefined] from the empty string. *)
Lemma join_render (a : list Js.value) :
  Js.join (map (fun v => Some (Js.render v)) a) = Js.join a.
Proof.
  induction a as [| v [| w rest] IH]; try reflexivity.
  change (Js.render v ++ "," ++ Js.join (map (fun v => Some (Js.render v)) (w :: rest))
          = Js.render v ++ "," ++ Js.join (w :: rest))%string.
  now rewrite IH.
Qed.

(** ** Facts about the loop over the changed files *)

Lemma features_visit (t : Tally) (node : FileNode) :
  features (visit t node) =
  match contentSegment node with
  | Some v => Js.add (features t) v
  | None => features t
  end.
Proof.
  unfold visit, contentSegment. cbn [features].
  now destruct (Js.strict_eq _ _).
Qed.

Lemma numFiles_fold (nodes : list FileNode) (t : Tally) :
  numFiles (fold_left visit nodes t) = numFiles t + Z.of_nat (List.length nodes).
Proof.
  revert t. induction nodes as [| node nodes IH]; intros t.
  - simpl. lia.
  - cbn [fold_left List.length]. rewrite IH. unfold visit. cbn [numFiles]. lia.
Qed.

Lemma numChanges_fold (nodes : list FileNode) (t : Tally) :
  numChanges (fold_left visit nodes t) = numChanges t + changes nodes.
Proof.
  revert t. induction nodes as [| node nodes IH]; intros t.
  - simpl. lia.
  - cbn [fold_left changes fold_right]. rewrite IH. unfold visit. cbn [numChanges].
    fold (changes nodes). lia.
Qed.

Lemma features_fold_In (nodes : list FileNode) (t : Tally) (v : Js.value) :
  In v (features (fold_left visit nodes t)) <->
  In v (features t) \/ exists node, In node nodes /\ contentSegment node = Some v.
Proof.
  revert t. induction nodes as [| node nodes IH]; intros t.
  - simpl. split; [now left | intros [H | [? [[] _]]]; assumption].
  - cbn [fold_left]. rewrite IH, features_visit. split.
    + intros [H | [n [Hn Hc]]].
      * destruct (contentSegment node) as [x|] eqn:E; [| now left].
        apply In_add in H. destruct H as [H | ->]; [now left |].
        right. exists node. split; [now left | assumption].
      * right. exists n. split; [now right | assumption].
    + intros [H | [n [[<- | Hn] Hc]]].
      * left. destruct (contentSegment node); [apply In_add; now left | assumption].
      * left. rewrite Hc. apply In_add. now right.
      * right. exists n. now split.
Qed.

Lemma features_fold_NoDup (nodes : list FileNode) (t : Tally) :
  NoDup (features t) -> NoDup (features (fold_left visit nodes t)).
Proof.
  revert t. induction nodes as [| node nodes IH]; intros t H; [assumption |].
  cbn [fold_left]. apply IH. rewrite features_visit.
  destruct (contentSegment node); [now apply NoDup_add | assumption].
Qed.

(** A file whose contribution is already in the set leaves it as it is. *)
Lemma features_again (nodes : list FileNode) (node : FileNode) :
  (forall v, contentSegment node = Some v -> In v (features (tally nodes))) ->
  features (tally (nodes ++ [node])) = features (tally nodes).
Proof.
  intros H. unfold tally. rewrite fold_left_app. cbn [fold_left].
  rewrite features_visit. destruct (contentSegment node) as [v|]; [| reflexivity].
  apply add_present. now apply H.
Qed.

(** ** Size classification *)

Lemma sizeOf_pick {A} (sizeXS sizeS sizeM sizeL : A) (n c : Z) :
  sizeOf sizeXS sizeS sizeM sizeL n c = pick sizeXS sizeS sizeM sizeL (sizeCategory n c).
Proof.
  unfold sizeCategory, sizeOf.
  destruct ((n <? 5) && (c <? 10)); [reflexivity |].
  destruct ((n <? 10) && (c <? 50)); [reflexivity |].
  destruct ((n <? 10) && (c <? 250)); reflexivity.
Qed.

Lemma tally_counts (nodes : list FileNode) :
  numFiles (tally nodes) = Z.of_nat (List.length nodes) /\
  numChanges (tally nodes) = changes nodes.
Proof.
  unfold tally. rewrite numFiles_fold, numChanges_fold. simpl. split; lia.
Qed.

Ltac size_cases n c :=
  unfold sizeCategory, sizeOf;
  destruct (Z.ltb_spec n 5); destruct (Z.ltb_spec n 10);
  destruct (Z.ltb_spec c 10); destruct (Z.ltb_spec c 50); destruct (Z.ltb_spec c 250);
  cbn [andb]; try lia.

(** C1.  Size classification is a total function of the number of changed
    files and the number of changed lines into XS, S, M and L, deciding by the
    first bucket that matches: XS when [numFiles < 5] and [numChanges < 10];
    else S when [numFiles < 10] and [numChanges < 50]; else M when
    [numFiles < 10] and [numChanges < 250]; else L.  The identifier the script
    picks is the one of that bucket, and for a pull request the two numbers are
    the count of its files and the sum of their additions and deletions. *)
Theorem C1_size_classification :
  forall numFiles numChanges : Z,
    let xs := numFiles < 5 /\ numChanges < 10 in
    let s := numFiles < 10 /\ numChanges < 50 in
    let m := numFiles < 10 /\ numChanges < 250 in
    (sizeCategory numFiles numChanges = Size.XS <-> xs) /\
    (sizeCategory numFiles numChanges = Size.S <-> ~ xs /\ s) /\
    (sizeCategory numFiles numChanges = Size.M <-> ~ xs /\ ~ s /\ m) /\
    (sizeCategory numFiles numChanges = Size.L <-> ~ xs /\ ~ s /\ ~ m) /\
    (forall (A : Type) (sizeXS sizeS sizeM sizeL : A),
        sizeOf sizeXS sizeS sizeM sizeL numFiles numChanges
        = pick sizeXS sizeS sizeM sizeL (sizeCategory numFiles numChanges)) /\
    (forall (A : Type) (sizeXS sizeS sizeM sizeL : A) (nodes : list FileNode),
        sizeTypeOf sizeXS sizeS sizeM sizeL nodes
        = sizeOf sizeXS sizeS sizeM sizeL (Z.of_nat (List.length nodes)) (changes nodes)) /\
    sizeCategory 4 9 = Size.XS /\
    sizeCategory 9 49 = Size.S /\
    sizeCategory 9 249 = Size.M /\
    sizeCategory 10 0 = Size.L /\
    sizeCategory 4 10 = Size.S.
Proof.
  intros n c xs s m. subst xs s m.
  repeat match goal with |- _ /\ _ => split end; try reflexivity.
  - size_cases n c; split; intros; try discriminate; try lia; reflexivity.
  - size_cases n c; split; intros; try discriminate; try lia; try reflexivity.
  - size_cases n c; split; intros; try discriminate; try lia; try reflexivity.
  - size_cases n c; split; intros; try discriminate; try lia; try reflexivity.
  - intros A a b d e. apply sizeOf_pick.
  - intros A a b d e files. unfold sizeTypeOf. cbv zeta.
    destruct (tally_counts files) as [-> ->]. reflexivity.
Qed.

(** ** Feature extraction *)

Lemma contentSegment_iff (node : FileNode) (v : Js.value) :
  contentSegment node = Some v <->
  Js.index (Js.split "/" (path node)) 0 = Some "content" /\
  Js.index (Js.split "/" (path node)) 1 = v.
Proof.
  unfold contentSegment. cbv zeta.
  destruct (Js.strict_eq (Js.index (Js.split "/" (path node)) 0) (Some "content")) eqn:E.
  - apply strict_eq_iff in E. split.
    + intros [= <-]. now split.
    + intros [_ <-]. reflexivity.
  - split; [discriminate |]. intros [H _]. apply strict_eq_iff in H. congruence.
Qed.

(** C4.  For every list of changed files, the feature set holds exactly the
    second segments (split on the slash) of the paths whose first segment is
    [content], each once; the feature string is its members joined by commas;
    a path that repeats one already seen changes nothing; and the three files
    of the example give the string [actions]. *)
Theorem C4_feature_extraction :
  forall files : list FileNode,
    (forall v : Js.value,
        In v (features (tally files)) <->
        exists node, In node files /\
                     Js.index (Js.split "/" (path node)) 0 = Some "content" /\
                     Js.index (Js.split "/" (path node)) 1 = v) /\
    NoDup (features (tally files)) /\
    featureOf files = Js.join (features (tally files)) /\
    (forall v w rest, Js.join (v :: w :: rest) = Js.render v ++ "," ++ Js.join (w :: rest))%string /\
    (forall v, Js.join [v] = Js.render v) /\
    (forall node again : FileNode,
        In node files -> path again = path node ->
        featureOf (files ++ [again]) = featureOf files) /\
    featureOf (files ++ files) = featureOf files /\
    featureOf [ Sample.changed 1 0 "content/actions/a.md";
                Sample.changed 2 1 "content/actions/b.md";
                Sample.changed 0 3 "data/x.yml" ] = "actions".
Proof.
  intros fs.
  assert (Hin : forall v, In v (features (tally fs)) <->
                exists node, In node fs /\ contentSegment node = Some v).
  { intros v. unfold tally. rewrite features_fold_In. simpl. split.
    - intros [[] | H]; assumption.
    - intros H. now right. }
  assert (Hagain : forall node again, In node fs -> path again = path node ->
                   features (tally (fs ++ [again])) = features (tally fs)).
  { intros node again Hn Hp. apply features_again. intros v Hv.
    apply Hin. exists node. split; [assumption |].
    unfold contentSegment in *. now rewrite <- Hp. }
  repeat match goal with |- _ /\ _ => split end; try reflexivity.
  - intros v. rewrite Hin. split; intros [node [Hn Hc]]; exists node;
      (split; [assumption | now apply contentSegment_iff]).
  - apply features_fold_NoDup. constructor.
  - intros node again Hn Hp. unfold featureOf. now rewrite (Hagain node again).
  - unfold featureOf. f_equal. unfold tally at 1. rewrite fold_left_app.
    fold (tally fs). clear Hagain.
    assert (Hsub : forall l t, (forall node, In node l -> forall v, contentSegment node = Some v ->
                                In v (features t)) ->
                   features (fold_left visit l t) = features t).
    { induction l as [| n l IH]; intros t Ht; [reflexivity |].
      cbn [fold_left].
      assert (Hv : features (visit t n) = features t).
      { rewrite features_visit. destruct (contentSegment n) as [v|] eqn:E; [| reflexivity].
        apply add_present. apply (Ht n); [now left | assumption]. }
      rewrite IH; [assumption |].
      intros node Hnode v Hc. rewrite Hv. apply (Ht node); [now right | assumption]. }
    apply Hsub. intros node Hn v Hc. apply Hin. now exists node.
Qed.

(** ** Facts about the lookups *)

Lemma find_none_iff {A} (p : A -> bool) (l : list A) :
  find p l = None <-> existsb p l = false.
Proof.
  induction l as [| x l IH]; simpl; [split; reflexivity |].
  destruct (p x); simpl; [split; discriminate | exact IH].
Qed.

Lemma findFieldID_absent (name : string) (data : Data) :
  hasField name data = false -> findFieldID name data = Err (FieldNotFound name).
Proof.
  unfold hasField, findFieldID. intros H. apply find_none_iff in H. now rewrite H.
Qed.

Lemma findFieldID_present (name : string) (data : Data) :
  hasField name data = true -> exists id, findFieldID name data = Ok id.
Proof.
  unfold hasField, findFieldID. intros H.
  destruct (find (named name) (nodes data)) as [f|] eqn:E.
  - apply find_some in E. destruct E as [_ E]. unfold named in E.
    destruct f; simpl in *; try discriminate; eauto.
  - apply find_none_iff in E. congruence.
Qed.

Lemma findSingleSelectID_absent (optionName fieldName : string) (data : Data) :
  offers optionName fieldName data = false ->
  exists e, findSingleSelectID optionName fieldName data = Err e.
Proof.
  unfold offers, findSingleSelectID. intros H.
  destruct (find (named fieldName) (nodes data)) as [f|]; [| eauto].
  apply find_none_iff in H. rewrite H. eauto.
Qed.

Lemma findSingleSelectID_present (optionName fieldName : string) (data : Data) :
  offers optionName fieldName data = true ->
  exists id, findSingleSelectID optionName fieldName data = Ok id.
Proof.
  unfold offers, findSingleSelectID. intros H.
  destruct (find (named fieldName) (nodes data)) as [f|]; [| discriminate].
  destruct (find (optionNamed optionName) (nodeOptions f)) eqn:E; [eauto |].
  apply find_none_iff in E. congruence.
Qed.

(** An option that no field offers is not offered by the field looked up. *)
Lemma hasOption_offers (optionName fieldName : string) (data : Data) :
  hasOption optionName data = false -> offers optionName fieldName data = false.
Proof.
  unfold hasOption, offers. intros H.
  destruct (find (named fieldName) (nodes data)) as [f|] eqn:E; [| reflexivity].
  apply find_some in E. destruct E as [Hin _].
  destruct (existsb (optionNamed optionName) (nodeOptions f)) eqn:Ho; [| reflexivity].
  assert (existsb (fun f => existsb (optionNamed optionName) (nodeOptions f)) (nodes data) = true)
    by (apply existsb_exists; eauto).
  congruence.
Qed.

Ltac lookup_step :=
  match goal with
  | H : context [match ?x with Ok _ => _ | Err _ => _ end] |- _ =>
      destruct x eqn:?; try discriminate H
  end.

(** When the lookups succeed, each constant is what its lookup returned. *)
Lemma lookupIDs_inv (data : Data) (ids : IDs) :
  lookupIDs data = Ok ids ->
  map (fun name => findFieldID name data) requiredFields
  = map Ok [ datePostedID ids; reviewDueDateID ids; statusID ids; featureID ids;
             contributorTypeID ids; sizeTypeID ids; authorID ids ] /\
  map (fun p => findSingleSelectID (fst p) (snd p) data) requiredOptions
  = map Ok [ readyForReviewID ids; hubberTypeID ids; docsMemberTypeID ids;
             osContributorTypeID ids; sizeXS ids; sizeS ids; sizeM ids; sizeL ids ].
Proof.
  intros H. unfold lookupIDs, andThen in H.
  repeat lookup_step. injection H as <-.
  cbn [map requiredFields requiredOptions fst snd].
  repeat match goal with E : _ = Ok _ |- _ => rewrite E; clear E end.
  split; reflexivity.
Qed.

Lemma lookupIDs_present (data : Data) (ids : IDs) :
  lookupIDs data = Ok ids ->
  (forall name, In name requiredFields -> hasField name data = true) /\
  (forall o f, In (o, f) requiredOptions -> offers o f data = true).
Proof.
  intros H. apply lookupIDs_inv in H. destruct H as [Hf Ho]. split.
  - intros name Hin. destruct (hasField name data) eqn:E; [reflexivity |].
    apply findFieldID_absent in E.
    apply (in_map (fun name => findFieldID name data)) in Hin.
    rewrite Hf, E in Hin. simpl in Hin. intuition discriminate.
  - intros o f Hin. destruct (offers o f data) eqn:E; [reflexivity |].
    apply findSingleSelectID_absent in E. destruct E as [e E].
    apply (in_map (fun p => findSingleSelectID (fst p) (snd p) data)) in Hin.
    cbn [fst snd] in Hin. rewrite Ho, E in Hin. simpl in Hin. intuition discriminate.
Qed.

(** ** Facts about a run *)

Ltac run_unfold H :=
  unfold run, addItemToProject, featureAndSize, firstTimeContributor, resolveContributorType,
    isDocsTeamMember, isGitHubOrgMember in H;
  unfold bind, lift, query, await, ret, throw, log in H.

Ltac run_simpl :=
  cbn [fst snd calls console items issued logged added updated start app] in *.

Ltac run_step H :=
  match type of H with
  | context [match ?x with Ok _ => _ | Err _ => _ end] => destruct x eqn:?
  | context [match ?x with Some _ => _ | None => _ end] => destruct x eqn:?
  | context [if ?b then _ else _] => destruct b eqn:?
  end; run_simpl.

Ltac rewrite_answers :=
  repeat match goal with
         | E : ?x = Ok _ |- context [?x] => rewrite E
         | E : ?x = Err _ |- context [?x] => rewrite E
         | E : ?x = true |- context [?x] => rewrite E
         | E : ?x = false |- context [?x] => rewrite E
         end.

(** Every case of a run, by what each call answered. *)
Ltac run_cases Hrun :=
  run_unfold Hrun; run_simpl; repeat run_step Hrun;
  injection Hrun as <- <-; run_simpl.

(** What [main] adds to [run]. *)
Lemma main_run (env : Env) (remote : Remote) :
  calls (fst (main env remote start)) = calls (fst (run env remote start)) /\
  items (fst (main env remote start)) = items (fst (run env remote start)) /\
  snd (main env remote start)
  = match snd (run env remote start) with
    | Ok _ => 0
    | Err _ => 1
    end.
Proof.
  unfold main. destruct (run env remote start) as [w [a | e]]; repeat split.
Qed.

(** A run that reaches the update: what it was given, what it sent, and how
    it ended. *)
Lemma run_filed_at (env : Env) (remote : Remote) (m : Mutation) (v : Variables.t)
  (w : World) (r : Result string) :
  run env remote start = (w, r) ->
  In (UpdateFields m v) (calls w) ->
  exists data ids newItemID firstTime contributorType w1 w2,
    board remote (ITEM_NODE_ID env) (ORGANIZATION env) (PROJECT_NUMBER env) = Ok data /\
    lookupIDs data = Ok ids /\
    addItem remote (ITEM_NODE_ID env) (projectID data) = Ok newItemID /\
    derive (sizeXS ids) (sizeS ids) (sizeM ids) (sizeL ids) (item data)
      = Some (feature m, Variables.sizeType v) /\
    snd (firstTimeContributor env remote w1) = Ok firstTime /\
    snd (resolveContributorType env remote (docsMemberTypeID ids) (hubberTypeID ids)
           (osContributorTypeID ids) w2) = Ok contributorType /\
    m = generateUpdateProjectV2ItemFieldMutation
          (now remote) newItemID (authorOf env firstTime) (turnaroundOf env) (feature m) /\
    v = variablesOf data ids contributorType (Variables.sizeType v) /\
    calls w
      = (BoardQuery (ITEM_NODE_ID env) (ORGANIZATION env) (PROJECT_NUMBER env)
         :: AddItemToProject (ITEM_NODE_ID env) (projectID data)
         :: lookupCalls env remote ++ [UpdateFields m v])%list /\
    items w
      = [ {| projectItemId := newItemID; content := ITEM_NODE_ID env;
             fieldValues := match update remote m v with
                            | Ok _ => assignments m v
                            | Err _ => []
                            end |} ] /\
    r = match update remote m v with
        | Ok _ => Ok newItemID
        | Err e => Err e
        end.
Proof.
  intros Hrun H. run_cases Hrun.
  all: try (simpl in H; intuition discriminate).
  all: simpl in H; repeat (destruct H as [H | H]; try discriminate); try contradiction.
  all: injection H as <- <-.
  all: match goal with p : (string * string)%type |- _ => destruct p end.
  all: match goal with
       | _ : board _ _ _ _ = Ok ?D, _ : lookupIDs _ = Ok ?I, _ : addItem _ _ _ = Ok ?N |- _ =>
           exists D, I, N; do 2 eexists; exists start, start
       end.
  all: cbn [fst snd] in *.
  all: unfold firstTimeContributor, resolveContributorType, isDocsTeamMember,
         isGitHubOrgMember, lookupCalls, assign;
       unfold bind, query, await, ret;
       cbn [map mutationItem projectItemId feature Variables.sizeType variablesOf
            generateUpdateProjectV2ItemFieldMutation fst snd content];
       rewrite ?String.eqb_refl; rewrite_answers;
       cbn [fst snd app];
       repeat split; try reflexivity; try assumption.
  all: unfold authorOf in *; cbv beta iota in *; rewrite_answers; try reflexivity.
Qed.

Lemma run_filed (env : Env) (remote : Remote) (m : Mutation) (v : Variables.t) :
  In (UpdateFields m v) (calls (fst (run env remote start))) ->
  exists data ids newItemID firstTime contributorType w1 w2,
    board remote (ITEM_NODE_ID env) (ORGANIZATION env) (PROJECT_NUMBER env) = Ok data /\
    lookupIDs data = Ok ids /\
    addItem remote (ITEM_NODE_ID env) (projectID data) = Ok newItemID /\
    derive (sizeXS ids) (sizeS ids) (sizeM ids) (sizeL ids) (item data)
      = Some (feature m, Variables.sizeType v) /\
    snd (firstTimeContributor env remote w1) = Ok firstTime /\
    snd (resolveContributorType env remote (docsMemberTypeID ids) (hubberTypeID ids)
           (osContributorTypeID ids) w2) = Ok contributorType /\
    m = generateUpdateProjectV2ItemFieldMutation
          (now remote) newItemID (authorOf env firstTime) (turnaroundOf env) (feature m) /\
    v = variablesOf data ids contributorType (Variables.sizeType v) /\
    calls (fst (run env remote start))
      = (BoardQuery (ITEM_NODE_ID env) (ORGANIZATION env) (PROJECT_NUMBER env)
         :: AddItemToProject (ITEM_NODE_ID env) (projectID data)
         :: lookupCalls env remote ++ [UpdateFields m v])%list /\
    items (fst (run env remote start))
      = [ {| projectItemId := newItemID; content := ITEM_NODE_ID env;
             fieldValues := match update remote m v with
                            | Ok _ => assignments m v
                            | Err _ => []
                            end |} ] /\
    snd (run env remote start)
      = match update remote m v with
        | Ok _ => Ok newItemID
        | Err e => Err e
        end.
Proof.
  intros H. apply (run_filed_at env remote m v); [apply surjective_pairing | exact H].
Qed.

(** No call is issued twice, and the calls come in the order of the script. *)
Lemma run_in_order (env : Env) (remote : Remote) :
  StronglySorted lt (map kind (calls (fst (run env remote start)))).
Proof.
  destruct (run env remote start) as [w r] eqn:Hrun. run_cases Hrun.
  all: cbn [map kind]; repeat constructor.
Qed.

(** A run whose lookups fail stops after the first query. *)
Lemma run_lookup_failed (env : Env) (remote : Remote) (data : Data) (e : Error) :
  board remote (ITEM_NODE_ID env) (ORGANIZATION env) (PROJECT_NUMBER env) = Ok data ->
  lookupIDs data = Err e ->
  run env remote start
  = ({| calls := [BoardQuery (ITEM_NODE_ID env) (ORGANIZATION env) (PROJECT_NUMBER env)];
        console := []; items := [] |}, Err e).
Proof.
  intros Hb Hl. unfold run, bind, query, await, lift. rewrite Hb. run_simpl.
  rewrite Hl. reflexivity.
Qed.

(** ** Items that are not pull requests, and pull requests without files *)

Lemma lookupIDs_sizes (data : Data) (ids : IDs) :
  lookupIDs data = Ok ids ->
  findSingleSelectID "XS" "Size" data = Ok (sizeXS ids) /\
  findSingleSelectID "S" "Size" data = Ok (sizeS ids) /\
  findFieldID "Size" data = Ok (sizeTypeID ids).
Proof.
  intros H. apply lookupIDs_inv in H. destruct H as [Hf Ho].
  cbn [map requiredFields requiredOptions fst snd] in Hf, Ho.
  injection Hf as _ _ _ _ _ Hsize _. injection Ho as _ _ _ _ Hxs Hs _ _.
  now repeat split.
Qed.

(** C5.  For every item that is not a pull request, whatever else it and the
    run are given, the derivation yields the empty feature string and the
    identifier of size S, without consulting the thresholds; an update the run
    issues carries exactly these. *)
Theorem C5_issue_defaults :
  forall (env : Env) (remote : Remote) (data : Data),
    board remote (ITEM_NODE_ID env) (ORGANIZATION env) (PROJECT_NUMBER env) = Ok data ->
    __typename (item data) <> "PullRequest" ->
    (forall (A : Type) (xs s m l : A), derive xs s m l (item data) = Some ("", s)) /\
    (forall (m : Mutation) (v : Variables.t),
        In (UpdateFields m v) (calls (fst (run env remote start))) ->
        feature m = "" /\
        findSingleSelectID "S" "Size" data = Ok (Variables.sizeType v) /\
        findFieldID "Size" data = Ok (Variables.sizeTypeID v) /\
        In (Variables.sizeTypeID v, SingleSelect (Variables.sizeType v)) (assignments m v) /\
        In (Variables.featureID v, Text (Some "")) (assignments m v)).
Proof.
  intros env remote data Hboard Htype.
  assert (Hd : forall (A : Type) (xs s m l : A), derive xs s m l (item data) = Some ("", s)).
  { intros A xs s m l. unfold derive, deriveFrom.
    destruct (String.eqb_spec (__typename (item data)) "PullRequest"); [contradiction | reflexivity]. }
  split; [exact Hd |].
  intros m v Hin. apply run_filed in Hin.
  destruct Hin as (data' & ids & newItemID & ft & ct & w1 & w2 & Hb & Hl & _ & Hder & _ & _ & _ & Hv & _).
  rewrite Hboard in Hb. injection Hb as <-.
  rewrite Hd in Hder. injection Hder as Hf Hs.
  destruct (lookupIDs_sizes data ids Hl) as (_ & HS & Hsize).
  assert (Hid : Variables.sizeTypeID v = sizeTypeID ids) by (rewrite Hv; reflexivity).
  rewrite <- Hf, <- Hs, Hid. repeat split; try assumption.
  - rewrite <- Hid, Hs. unfold assignments. simpl. tauto.
  - rewrite Hf. unfold assignments. simpl. tauto.
Qed.

Lemma C5_issue_defaults_witness :
  Sample.issue.(__typename) <> "PullRequest" /\
  derive "O_xs" "O_s" "O_m" "O_l" Sample.issue = Some ("", "O_s").
Proof.
  assert (H : __typename Sample.issue <> "PullRequest") by discriminate.
  split; [exact H |].
  exact (proj1 (C5_issue_defaults
                  (Sample.env "github/docs")
                  (Sample.remote (Sample.data Sample.fields Sample.issue) Sample.regular
                                 false false (Ok tt))
                  (Sample.data Sample.fields Sample.issue) eq_refl H)
               string "O_xs" "O_s" "O_m" "O_l").
Defined.

(** C9.  For every pull request whose list of changed files is empty the
    size is XS (no file, no change), with the empty feature string, and an
    update the run issues carries the identifier of XS.  For an item whose
    typename is PullRequest the initial value of the size, the default for an
    issue, never reaches the result: the size is the one the thresholds give
    for its files. *)
Theorem C9_empty_pull_request :
  forall (env : Env) (remote : Remote) (data : Data),
    board remote (ITEM_NODE_ID env) (ORGANIZATION env) (PROJECT_NUMBER env) = Ok data ->
    __typename (item data) = "PullRequest" ->
    (files (item data) = Some [] ->
     (forall (A : Type) (xs s m l : A), derive xs s m l (item data) = Some ("", xs)) /\
     derive Size.XS Size.S Size.M Size.L (item data) <> Some ("", Size.S) /\
     (forall (m : Mutation) (v : Variables.t),
         In (UpdateFields m v) (calls (fst (run env remote start))) ->
         feature m = "" /\
         findSingleSelectID "XS" "Size" data = Ok (Variables.sizeType v))) /\
    (forall (A : Type) (initial initial' xs s m l : A),
        deriveFrom initial xs s m l (item data) = deriveFrom initial' xs s m l (item data)) /\
    (forall (A : Type) (xs s m l : A) (nodes : list FileNode),
        files (item data) = Some nodes ->
        derive xs s m l (item data)
        = Some (featureOf nodes,
                sizeOf xs s m l (Z.of_nat (List.length nodes)) (changes nodes))).
Proof.
  intros env remote data Hboard Htype.
  assert (Hd : forall (A : Type) (initial xs s m l : A) (nodes : list FileNode),
             files (item data) = Some nodes ->
             deriveFrom initial xs s m l (item data)
             = Some (featureOf nodes,
                     sizeOf xs s m l (Z.of_nat (List.length nodes)) (changes nodes))).
  { intros A initial xs s m l fs Hfs. unfold deriveFrom, sizeTypeOf.
    rewrite Htype, Hfs. cbv zeta. destruct (tally_counts fs) as [-> ->]. reflexivity. }
  split; [intros Hnone; split; [| split] | split].
  - intros A xs s m l. unfold derive. now rewrite (Hd A s xs s m l [] Hnone).
  - unfold derive. rewrite (Hd _ Size.S Size.XS Size.S Size.M Size.L [] Hnone). discriminate.
  - intros m v Hin. apply run_filed in Hin.
    destruct Hin as (data' & ids & nid & ft & ct & w1 & w2 & Hb & Hl & _ & Hder & _).
    rewrite Hboard in Hb. injection Hb as <-.
    unfold derive in Hder. rewrite (Hd _ _ _ _ _ _ [] Hnone) in Hder.
    injection Hder as Hfeature Hsize. split; [now symmetry |].
    rewrite <- Hsize. apply (lookupIDs_sizes data ids Hl).
  - intros A initial initial' xs s m l. unfold deriveFrom. now rewrite Htype.
  - intros A xs s m l fs Hfs. unfold derive. now apply Hd.
Qed.

Lemma C9_empty_pull_request_witness :
  derive Size.XS Size.S Size.M Size.L (Sample.pullRequest []) = Some ("", Size.XS).
Proof.
  exact (proj1 (proj1 (C9_empty_pull_request
                         (Sample.env "github/docs")
                         (Sample.remote (Sample.data Sample.fields (Sample.pullRequest []))
                                        Sample.regular false false (Ok tt))
                         (Sample.data Sample.fields (Sample.pullRequest []))
                         eq_refl eq_refl) eq_refl)
               Size.t Size.XS Size.S Size.M Size.L).
Defined.

(** C10.  A changed file whose path has exactly the two segments [content]
    and a file name adds the file name itself as a feature.  A changed file
    whose path is the single segment [content] adds the undefined second
    segment, and the joined string renders it as an empty-string element
    would be rendered. *)
Theorem C10_short_content_paths :
  forall (nodes : list FileNode) (node : FileNode),
    In node nodes ->
    (forall name : string,
        Js.split "/" (path node) = ["content"; name] ->
        In (Some name) (features (tally nodes))) /\
    (path node = "content" -> In None (features (tally nodes))) /\
    (forall s : Js.set, Js.join s = Js.join (map (fun v => Some (Js.render v)) s)) /\
    Js.render None = "" /\
    features (tally [Sample.changed 1 0 "content/README.md"]) = [Some "README.md"] /\
    features (tally [Sample.changed 1 0 "content"]) = [None] /\
    featureOf [Sample.changed 1 0 "content"] = "" /\
    featureOf [Sample.changed 1 0 "content/actions/a.md"; Sample.changed 1 0 "content"]
    = "actions,".
Proof.
  intros nodes node Hin.
  assert (Hseg : forall v, contentSegment node = Some v -> In v (features (tally nodes))).
  { intros v Hv. unfold tally. apply features_fold_In. right. now exists node. }
  repeat split.
  - intros name Hsplit. apply Hseg. unfold contentSegment. now rewrite Hsplit.
  - intros Hpath. apply Hseg. unfold contentSegment. now rewrite Hpath.
  - intros s. symmetry. apply join_render.
Qed.

Lemma C10_short_content_paths_witness :
  In (Some "README.md")
     (features (tally [Sample.changed 3 1 "data/x.yml"; Sample.changed 1 0 "content/README.md"])).
Proof.
  exact (proj1 (C10_short_content_paths
                  [Sample.changed 3 1 "data/x.yml"; Sample.changed 1 0 "content/README.md"]
                  (Sample.changed 1 0 "content/README.md")
                  (or_intror (or_introl eq_refl)))
               "README.md" eq_refl).
Defined.

(** ** Author label, contributor type and turnaround *)

Lemma isOpenSourceRepo_iff (env : Env) :
  isOpenSourceRepo env = true <-> REPO env = Some "github/docs".
Proof. apply strict_eq_iff. Qed.



Lemma firstTimeContributor_answer (env : Env) (remote : Remote) (w : World) :
  snd (firstTimeContributor env remote w)
  = if isOpenSourceRepo env
    then match contributions remote (AUTHOR_LOGIN env) with
         | Ok c => Ok (firstTimeContributorOf c)
         | Err e => Err e
         end
    else Ok false.
Proof.
  unfold firstTimeContributor, bind, query, await, ret.
  destruct (isOpenSourceRepo env); [| reflexivity].
  now destruct (contributions remote (AUTHOR_LOGIN env)).
Qed.

(** With two entries for the repository in one collection the script counts
    the first only. *)
Example docsCount_first_only :
  docsCount [Sample.entry 1 "github/docs"; Sample.entry 4 "github/docs"] = 1 /\
  contributionTotal [Sample.entry 1 "github/docs"; Sample.entry 4 "github/docs"] = 5.
Proof. split; reflexivity. Qed.



Lemma resolveContributorType_docs (env : Env) (remote : Remote) {A} (docs hubber os : A)
  (w : World) :
  docsTeamMember remote (AUTHOR_LOGIN env) = Ok true ->
  resolveContributorType env remote docs hubber os w
  = (issued (IsDocsTeamMember (AUTHOR_LOGIN env)) w, Ok docs).
Proof.
  intros H. unfold resolveContributorType, isDocsTeamMember, bind, query, await, ret.
  now rewrite H.
Qed.

Lemma resolveContributorType_other (env : Env) (remote : Remote) {A} (docs hubber os : A)
  (w : World) (org : bool) :
  docsTeamMember remote (AUTHOR_LOGIN env) = Ok false ->
  orgMember remote (AUTHOR_LOGIN env) = Ok org ->
  resolveContributorType env remote docs hubber os w
  = (issued (IsGitHubOrgMember (AUTHOR_LOGIN env)) (issued (IsDocsTeamMember (AUTHOR_LOGIN env)) w),
     Ok (if org then hubber else if isOpenSourceRepo env then os else hubber)).
Proof.
  intros Hd Ho.
  unfold resolveContributorType, isDocsTeamMember, isGitHubOrgMember, bind, query, await, ret.
  rewrite Hd. cbn [fst snd]. rewrite Ho.
  destruct org; [reflexivity |]. now destruct (isOpenSourceRepo env).
Qed.

Lemma resolveContributorType_range (env : Env) (remote : Remote) {A} (docs hubber os t : A)
  (w : World) :
  snd (resolveContributorType env remote docs hubber os w) = Ok t ->
  t = docs \/ t = hubber \/ t = os.
Proof.
  destruct (docsTeamMember remote (AUTHOR_LOGIN env)) as [[|] | e] eqn:Hd.
  - rewrite (resolveContributorType_docs _ _ _ _ _ _ Hd). intros [= <-]. now left.
  - destruct (orgMember remote (AUTHOR_LOGIN env)) as [org | e] eqn:Ho.
    + rewrite (resolveContributorType_other _ _ _ _ _ _ _ Hd Ho). intros [= <-].
      destruct org; [tauto |]. destruct (isOpenSourceRepo env); tauto.
    + unfold resolveContributorType, isDocsTeamMember, isGitHubOrgMember, bind, query, await, ret.
      rewrite Hd. cbn [fst snd]. rewrite Ho. discriminate.
  - unfold resolveContributorType, isDocsTeamMember, bind, query, await, ret.
    rewrite Hd. discriminate.
Qed.

(** C3.  The contributor type is decided by the first rule that matches: a
    member of the docs team gets the docs-team value, and the organization is
    then not even asked, so membership of both gives the docs-team value
    only; otherwise a member of the organization gets the org-member value;
    otherwise the open-source value when the repository is [github/docs];
    otherwise the org-member value again.  Whenever the lookups answer, one of
    the three values results, and the update the run issues carries it as the
    option of the Contributor type field. *)
Theorem C3_contributor_classification :
  forall (env : Env) (remote : Remote) (A : Type) (docs hubber os : A) (w : World),
    let login := AUTHOR_LOGIN env in
    let r := resolveContributorType env remote docs hubber os w in
    (docsTeamMember remote login = Ok true ->
     snd r = Ok docs /\ calls (fst r) = (calls w ++ [IsDocsTeamMember login])%list) /\
    (docsTeamMember remote login = Ok false -> orgMember remote login = Ok true ->
     snd r = Ok hubber) /\
    (docsTeamMember remote login = Ok false -> orgMember remote login = Ok false ->
     REPO env = Some "github/docs" -> snd r = Ok os) /\
    (docsTeamMember remote login = Ok false -> orgMember remote login = Ok false ->
     REPO env <> Some "github/docs" -> snd r = Ok hubber) /\
    ((exists b, docsTeamMember remote login = Ok b) ->
     (exists b, orgMember remote login = Ok b) ->
     exists t, snd r = Ok t /\ (t = docs \/ t = hubber \/ t = os)) /\
    (forall (m : Mutation) (v : Variables.t),
        In (UpdateFields m v) (calls (fst (run env remote start))) ->
        exists data ids,
          board remote (ITEM_NODE_ID env) (ORGANIZATION env) (PROJECT_NUMBER env) = Ok data /\
          findFieldID "Contributor type" data = Ok (Variables.contributorTypeID v) /\
          findSingleSelectID "Docs team" "Contributor type" data = Ok (docsMemberTypeID ids) /\
          findSingleSelectID "Hubber or partner" "Contributor type" data
          = Ok (hubberTypeID ids) /\
          findSingleSelectID "OS contributor" "Contributor type" data
          = Ok (osContributorTypeID ids) /\
          snd (resolveContributorType env remote (docsMemberTypeID ids) (hubberTypeID ids)
                 (osContributorTypeID ids) start) = Ok (Variables.contributorType v) /\
          In (Variables.contributorTypeID v, SingleSelect (Variables.contributorType v))
             (assignments m v)).
Proof.
  intros env remote A docs hubber os w login r. subst login r.
  repeat match goal with |- _ /\ _ => split end.
  - intros Hd. now rewrite (resolveContributorType_docs _ _ _ _ _ _ Hd).
  - intros Hd Ho. now rewrite (resolveContributorType_other _ _ _ _ _ _ _ Hd Ho).
  - intros Hd Ho Hrepo. rewrite (resolveContributorType_other _ _ _ _ _ _ _ Hd Ho).
    apply isOpenSourceRepo_iff in Hrepo. now rewrite Hrepo.
  - intros Hd Ho Hrepo. rewrite (resolveContributorType_other _ _ _ _ _ _ _ Hd Ho).
    destruct (isOpenSourceRepo env) eqn:E; [| reflexivity].
    apply isOpenSourceRepo_iff in E. contradiction.
  - intros [[|] Hd] [org Ho].
    + rewrite (resolveContributorType_docs _ _ _ _ _ _ Hd). exists docs. split; [reflexivity | tauto].
    + rewrite (resolveContributorType_other _ _ _ _ _ _ _ Hd Ho). eexists. split; [reflexivity |].
      destruct org; [tauto |]. destruct (isOpenSourceRepo env); tauto.
  - intros m v Hin. apply run_filed in Hin.
    destruct Hin as (data & ids & nid & ft & ct & w1 & w2 & Hb & Hl & _ & _ & _ & Hct & _ & Hv & _).
    exists data, ids. pose proof (lookupIDs_inv data ids Hl) as [Hf Ho].
    cbn [map requiredFields requiredOptions fst snd] in Hf, Ho.
    injection Hf as _ _ _ _ Hctype _ _. injection Ho as _ Hh Hdocs Hos _ _ _ _.
    assert (Hid : Variables.contributorTypeID v = contributorTypeID ids)
      by (rewrite Hv; reflexivity).
    assert (Hval : Variables.contributorType v = ct) by (rewrite Hv; reflexivity).
    rewrite Hid, Hval. repeat split; try assumption.
    + rewrite <- Hct. unfold resolveContributorType, isDocsTeamMember, isGitHubOrgMember,
        bind, query, await, ret.
      destruct (docsTeamMember remote (AUTHOR_LOGIN env)) as [[|] |]; try reflexivity.
      cbn [fst snd]. destruct (orgMember remote (AUTHOR_LOGIN env)) as [[|] |]; try reflexivity.
      now destruct (isOpenSourceRepo env).
    + rewrite <- Hid, <- Hval. unfold assignments. simpl. tauto.
Qed.

(** C6.  The turnaround is 3 when the repository is [github/docs] and 2 in
    every other case, an unset repository included; it is the turnaround the
    update request is generated with, hence the number of days between the
    date posted and the review due date. *)
Theorem C6_turnaround :
  forall env : Env,
    (REPO env = Some "github/docs" -> turnaroundOf env = 3) /\
    (REPO env <> Some "github/docs" -> turnaroundOf env = 2) /\
    (turnaroundOf env = 3 \/ turnaroundOf env = 2) /\
    (forall (remote : Remote) (m : Mutation) (v : Variables.t),
        In (UpdateFields m v) (calls (fst (run env remote start))) ->
        turnaround m = turnaroundOf env /\
        In (Variables.datePostedID v, Date (now remote)) (assignments m v) /\
        In (Variables.reviewDueDateID v, Date (now remote + turnaroundOf env))
           (assignments m v)).
Proof.
  intros env. unfold turnaroundOf.
  repeat match goal with |- _ /\ _ => split end.
  - intros H. apply isOpenSourceRepo_iff in H. now rewrite H.
  - intros H. destruct (isOpenSourceRepo env) eqn:E; [| reflexivity].
    apply isOpenSourceRepo_iff in E. contradiction.
  - destruct (isOpenSourceRepo env); tauto.
  - intros remote m v Hin. apply run_filed in Hin.
    destruct Hin as (data & ids & nid & ft & ct & w1 & w2 & _ & _ & _ & _ & _ & _ & Hm & _).
    fold (turnaroundOf env). rewrite Hm. unfold assignments. simpl. tauto.
Qed.

(** ** Missing fields and options *)

(** C7.  Whenever the fetched metadata lacks one of the required field names,
    or the field looked up does not offer one of the required option names
    (as when no field offers it), the lookup of that name signals a failure
    instead of returning an identifier, the run ends with that failure
    after the first query, before any mutation, and the process exits with 1.
    Where the name is present the lookup returns an identifier. *)
Theorem C7_missing_name_fails :
  forall (env : Env) (remote : Remote) (data : Data),
    board remote (ITEM_NODE_ID env) (ORGANIZATION env) (PROJECT_NUMBER env) = Ok data ->
    (exists name, In name requiredFields /\ hasField name data = false) \/
    (exists o f, In (o, f) requiredOptions /\
                 (offers o f data = false \/ hasOption o data = false)) ->
    (forall name, hasField name data = false ->
                  findFieldID name data = Err (FieldNotFound name)) /\
    (forall o f, offers o f data = false \/ hasOption o data = false ->
                 exists e, findSingleSelectID o f data = Err e) /\
    (forall name, hasField name data = true -> exists id, findFieldID name data = Ok id) /\
    (forall o f, offers o f data = true -> exists id, findSingleSelectID o f data = Ok id) /\
    exists e,
      lookupIDs data = Err e /\
      run env remote start
      = ({| calls := [BoardQuery (ITEM_NODE_ID env) (ORGANIZATION env) (PROJECT_NUMBER env)];
            console := []; items := [] |}, Err e) /\
      main env remote start
      = ({| calls := [BoardQuery (ITEM_NODE_ID env) (ORGANIZATION env) (PROJECT_NUMBER env)];
            console := [ErrorLine e]; items := [] |}, 1).
Proof.
  intros env remote data Hboard Hmissing.
  assert (Hopt : forall o f, offers o f data = false \/ hasOption o data = false ->
                             offers o f data = false).
  { intros o f [H | H]; [assumption | now apply hasOption_offers]. }
  repeat match goal with |- _ /\ _ => split end.
  - intros name. apply findFieldID_absent.
  - intros o f H. apply findSingleSelectID_absent. now apply Hopt.
  - intros name. apply findFieldID_present.
  - intros o f. apply findSingleSelectID_present.
  - destruct (lookupIDs data) as [ids | e] eqn:Hl.
    + exfalso. destruct (lookupIDs_present data ids Hl) as [Hf Ho].
      destruct Hmissing as [(name & Hin & Hno) | (o & f & Hin & Hno)].
      * rewrite (Hf name Hin) in Hno. discriminate.
      * apply Hopt in Hno. rewrite (Ho o f Hin) in Hno. discriminate.
    + exists e. split; [reflexivity |].
      pose proof (run_lookup_failed env remote data e Hboard Hl) as Hrun.
      split; [exact Hrun |]. unfold main. rewrite Hrun. reflexivity.
Qed.

Lemma C7_missing_name_fails_witness :
  main (Sample.env "github/docs")
       (Sample.remote (Sample.data Sample.fieldsWithoutSize Sample.issue) Sample.regular
                      true true (Ok tt))
       start
  = ({| calls := [BoardQuery (Some "PR_7") (Some "github") (Some "2936")];
        console := [ErrorLine (FieldNotFound "Size")]; items := [] |}, 1).
Proof.
  destruct (C7_missing_name_fails
              (Sample.env "github/docs")
              (Sample.remote (Sample.data Sample.fieldsWithoutSize Sample.issue) Sample.regular
                             true true (Ok tt))
              (Sample.data Sample.fieldsWithoutSize Sample.issue)
              eq_refl
              (or_introl (ex_intro _ "Size"
                 (conj (or_intror (or_intror (or_intror (or_intror (or_intror
                          (or_introl eq_refl)))))) eq_refl))))
    as (_ & _ & _ & _ & e & Hl & _ & Hmain).
  vm_compute in Hl. injection Hl as <-. exact Hmain.
Defined.

(** ** Order of the mutations *)

Lemma resolveContributorType_answer (env : Env) (remote : Remote) {A} (docs hubber os : A)
  (w : World) :
  snd (resolveContributorType env remote docs hubber os w)
  = snd (resolveContributorType env remote docs hubber os start).
Proof.
  unfold resolveContributorType, isDocsTeamMember, isGitHubOrgMember, bind, query, await, ret.
  destruct (docsTeamMember remote (AUTHOR_LOGIN env)) as [[|] |]; try reflexivity.
  cbn [fst snd]. destruct (orgMember remote (AUTHOR_LOGIN env)) as [[|] |]; try reflexivity.
  now destruct (isOpenSourceRepo env).
Qed.

(** A run in which every call before the update answers and the derivation
    does not throw: the calls it issues, in order, and how it ends. *)
Lemma run_completes (env : Env) (remote : Remote) (data : Data) (ids : IDs)
  (newItemID feature sizeType : string) (firstTime : bool) (contributorType : string) :
  board remote (ITEM_NODE_ID env) (ORGANIZATION env) (PROJECT_NUMBER env) = Ok data ->
  lookupIDs data = Ok ids ->
  addItem remote (ITEM_NODE_ID env) (projectID data) = Ok newItemID ->
  derive (sizeXS ids) (sizeS ids) (sizeM ids) (sizeL ids) (item data)
  = Some (feature, sizeType) ->
  snd (firstTimeContributor env remote start) = Ok firstTime ->
  snd (resolveContributorType env remote (docsMemberTypeID ids) (hubberTypeID ids)
         (osContributorTypeID ids) start) = Ok contributorType ->
  let m := generateUpdateProjectV2ItemFieldMutation
             (now remote) newItemID (authorOf env firstTime) (turnaroundOf env) feature in
  let v := variablesOf data ids contributorType sizeType in
  calls (fst (run env remote start))
  = (BoardQuery (ITEM_NODE_ID env) (ORGANIZATION env) (PROJECT_NUMBER env)
     :: AddItemToProject (ITEM_NODE_ID env) (projectID data)
     :: lookupCalls env remote ++ [UpdateFields m v])%list /\
  items (fst (run env remote start))
  = [ {| projectItemId := newItemID; content := ITEM_NODE_ID env;
         fieldValues := match update remote m v with
                        | Ok _ => assignments m v
                        | Err _ => []
                        end |} ] /\
  snd (run env remote start)
  = match update remote m v with
    | Ok _ => Ok newItemID
    | Err e => Err e
    end.
Proof.
  intros Hb Hl Ha Hd Hft Hct m v. subst m v.
  rewrite firstTimeContributor_answer in Hft.
  unfold resolveContributorType, isDocsTeamMember, isGitHubOrgMember, bind, query, await, ret
    in Hct.
  unfold run, addItemToProject, featureAndSize, firstTimeContributor, resolveContributorType,
    isDocsTeamMember, isGitHubOrgMember, lookupCalls.
  unfold bind, lift, query, await, ret, throw, log.
  rewrite Hb. run_simpl. rewrite Hl. cbv beta iota. rewrite Ha. run_simpl. rewrite Hd.
  run_simpl.
  destruct (isOpenSourceRepo env);
    [destruct (contributions remote (AUTHOR_LOGIN env)); [| discriminate Hft] |];
    injection Hft as <-; run_simpl.
  all: destruct (docsTeamMember remote (AUTHOR_LOGIN env)) as [[|] | ?];
    [ | destruct (orgMember remote (AUTHOR_LOGIN env)) as [[|] | ?] | ];
    cbn [fst snd] in Hct; try discriminate Hct.
  all: injection Hct as <-.
  all: destruct (update remote _ _); run_simpl; unfold assign;
    cbn [map projectItemId mutationItem generateUpdateProjectV2ItemFieldMutation content];
    rewrite ?String.eqb_refl; repeat split; reflexivity.
Qed.

(** C8.  In every run the calls are issued in the order of the script and
    none twice.  A run in which the first query, the lookups of names, the
    add-item mutation, the derivation and the lookups about the author all
    succeed issues the add-item mutation and then, after those lookups only,
    the one update; the update names the item the add returned and sets Status
    to Ready for review, Date posted to now, Review due date to now plus the
    turnaround, Contributor type to the resolved classification, Size to the
    resolved size, Feature to the resolved feature string and Contributor to
    the resolved author.  No run issues an update in another way.  If the
    update fails, the process exits with 1 and the item stays on the board
    with no field set; if it succeeds, the process exits with 0 and the item
    has the fields. *)
Theorem C8_add_then_update :
  forall (env : Env) (remote : Remote),
    let w := fst (main env remote start) in
    StronglySorted lt (map kind (calls w)) /\
    (forall (m : Mutation) (v : Variables.t),
        In (UpdateFields m v) (calls w) ->
        exists data ids newItemID,
          board remote (ITEM_NODE_ID env) (ORGANIZATION env) (PROJECT_NUMBER env) = Ok data /\
          lookupIDs data = Ok ids /\
          addItem remote (ITEM_NODE_ID env) (projectID data) = Ok newItemID /\
          calls w
          = (BoardQuery (ITEM_NODE_ID env) (ORGANIZATION env) (PROJECT_NUMBER env)
             :: AddItemToProject (ITEM_NODE_ID env) (projectID data)
             :: lookupCalls env remote ++ [UpdateFields m v])%list /\
          Forall (fun c => kind c = 2 \/ kind c = 3 \/ kind c = 4)%nat (lookupCalls env remote) /\
          mutationItem m = newItemID /\
          Variables.project v = projectID data /\
          map (fun a => Ok (fst a)) (assignments m v)
          = map (fun name => findFieldID name data)
                [ "Status"; "Date posted"; "Review due date"; "Contributor type"; "Size";
                  "Feature"; "Contributor" ] /\
          findSingleSelectID "Ready for review" "Status" data = Ok (readyForReviewID ids) /\
          map snd (assignments m v)
          = [ SingleSelect (readyForReviewID ids);
              Date (now remote);
              Date (now remote + turnaroundOf env);
              SingleSelect (Variables.contributorType v);
              SingleSelect (Variables.sizeType v);
              Text (Some (feature m));
              Text (author m) ] /\
          (forall e, update remote m v = Err e ->
                     snd (main env remote start) = 1 /\
                     items w = [ {| projectItemId := newItemID; content := ITEM_NODE_ID env;
                                    fieldValues := [] |} ]) /\
          (forall u, update remote m v = Ok u ->
                     snd (main env remote start) = 0 /\
                     items w = [ {| projectItemId := newItemID; content := ITEM_NODE_ID env;
                                    fieldValues := assignments m v |} ]) /\
          derive (sizeXS ids) (sizeS ids) (sizeM ids) (sizeL ids) (item data)
          = Some (feature m, Variables.sizeType v) /\
          snd (resolveContributorType env remote (docsMemberTypeID ids) (hubberTypeID ids)
                 (osContributorTypeID ids) start) = Ok (Variables.contributorType v) /\
          exists firstTime,
            snd (firstTimeContributor env remote start) = Ok firstTime /\
            author m = authorOf env firstTime) /\
    (forall (data : Data) (ids : IDs) (newItemID feature sizeType : string)
            (firstTime : bool) (contributorType : string),
        board remote (ITEM_NODE_ID env) (ORGANIZATION env) (PROJECT_NUMBER env) = Ok data ->
        lookupIDs data = Ok ids ->
        addItem remote (ITEM_NODE_ID env) (projectID data) = Ok newItemID ->
        derive (sizeXS ids) (sizeS ids) (sizeM ids) (sizeL ids) (item data)
        = Some (feature, sizeType) ->
        snd (firstTimeContributor env remote start) = Ok firstTime ->
        snd (resolveContributorType env remote (docsMemberTypeID ids) (hubberTypeID ids)
               (osContributorTypeID ids) start) = Ok contributorType ->
        let m := generateUpdateProjectV2ItemFieldMutation
                   (now remote) newItemID (authorOf env firstTime) (turnaroundOf env) feature in
        let v := variablesOf data ids contributorType sizeType in
        calls w
        = (BoardQuery (ITEM_NODE_ID env) (ORGANIZATION env) (PROJECT_NUMBER env)
           :: AddItemToProject (ITEM_NODE_ID env) (projectID data)
           :: lookupCalls env remote ++ [UpdateFields m v])%list /\
        assignments m v
        = [ (statusID ids, SingleSelect (readyForReviewID ids));
            (datePostedID ids, Date (now remote));
            (reviewDueDateID ids, Date (now remote + turnaroundOf env));
            (contributorTypeID ids, SingleSelect contributorType);
            (sizeTypeID ids, SingleSelect sizeType);
            (featureID ids, Text (Some feature));
            (authorID ids, Text (authorOf env firstTime)) ] /\
        (forall e, update remote m v = Err e ->
                   snd (main env remote start) = 1 /\
                   items w = [ {| projectItemId := newItemID; content := ITEM_NODE_ID env;
                                  fieldValues := [] |} ]) /\
        (forall u, update remote m v = Ok u ->
                   snd (main env remote start) = 0 /\
                   items w = [ {| projectItemId := newItemID; content := ITEM_NODE_ID env;
                                  fieldValues := assignments m v |} ])).
Proof.
  intros env remote w. subst w.
  destruct (main_run env remote) as (Hcalls & Hitems & Hexit).
  rewrite Hcalls, Hitems, Hexit. split; [apply run_in_order | split].
  - intros m v Hin. apply run_filed in Hin.
    destruct Hin as (data & ids & nid & ft & ct & w1 & w2
                     & Hb & Hl & Ha & Hd & Hft & Hct & Hm & Hv & Hc & Hi & Hr).
    exists data, ids, nid. rewrite Hc, Hi, Hr.
    pose proof (lookupIDs_inv data ids Hl) as [Hf Ho].
    cbn [map requiredFields requiredOptions fst snd] in Hf, Ho.
    injection Hf as Hposted Hdue Hstatus Hfeature Hctype Hsize Hauthor.
    injection Ho as Hready _.
    rewrite resolveContributorType_answer in Hct.
    rewrite firstTimeContributor_answer in Hft.
    rewrite <- (firstTimeContributor_answer env remote start) in Hft.
    repeat match goal with |- _ /\ _ => split end; try assumption; try reflexivity.
    + unfold lookupCalls. apply Forall_app. split.
      * destruct (isOpenSourceRepo env); repeat constructor.
      * destruct (docsTeamMember remote (AUTHOR_LOGIN env)) as [[|] |];
          repeat constructor; simpl; tauto.
    + now rewrite Hm.
    + now rewrite Hv.
    + rewrite Hv. unfold assignments, variablesOf. cbn [map fst Variables.statusID
        Variables.datePostedID Variables.reviewDueDateID Variables.contributorTypeID
        Variables.sizeTypeID Variables.featureID Variables.authorID].
      now rewrite Hposted, Hdue, Hstatus, Hfeature, Hctype, Hsize, Hauthor.
    + unfold assignments. cbn [map snd].
      replace (generated m) with (now remote) by (rewrite Hm; reflexivity).
      replace (turnaround m) with (turnaroundOf env) by (rewrite Hm; reflexivity).
      replace (Variables.statusValueID v) with (readyForReviewID ids)
        by (rewrite Hv; reflexivity).
      reflexivity.
    + intros e He. rewrite He. now split.
    + intros u Hu. rewrite Hu. now split.
    + replace (Variables.contributorType v) with ct by (rewrite Hv; reflexivity).
      exact Hct.
    + exists ft. split; [exact Hft | now rewrite Hm].
  - intros data ids nid feature sizeType ft ct Hb Hl Ha Hd Hft Hct m v.
    destruct (run_completes env remote data ids nid feature sizeType ft ct Hb Hl Ha Hd Hft Hct)
      as (Hc & Hi & Hr).
    fold m v in Hc, Hi, Hr. rewrite Hc, Hi, Hr.
    repeat match goal with |- _ /\ _ => split end; try reflexivity.
    + intros e He. rewrite He. now split.
    + intros u Hu. rewrite Hu. now split.
Qed.

Lemma C8_add_then_update_witness :
  calls (fst (main (Sample.env "github/docs")
                   (Sample.remote
                      (Sample.data Sample.fields (Sample.pullRequest Sample.threeFiles))
                      Sample.firstPR false false (Ok tt))
                   start))
  = [ BoardQuery (Some "PR_7") (Some "github") (Some "2936");
      AddItemToProject (Some "PR_7") "PVT_1";
      ContributionsQuery (Some "octocat");
      IsDocsTeamMember (Some "octocat");
      IsGitHubOrgMember (Some "octocat");
      UpdateFields
        {| mutationItem := "PVTI_9"; author := Some "first time contributor";
           turnaround := 3; feature := "actions"; generated := 100 |}
        {| Variables.project := "PVT_1"; Variables.statusID := "F_status";
           Variables.statusValueID := "O_ready";
           Variables.datePostedID := "F_posted"; Variables.reviewDueDateID := "F_due";
           Variables.contributorTypeID := "F_ctype"; Variables.contributorType := "O_os";
           Variables.sizeTypeID := "F_size"; Variables.sizeType := "O_s";
           Variables.featureID := "F_feature"; Variables.authorID := "F_author" |} ].
Proof.
  exact (proj1 (proj2 (proj2 (C8_add_then_update
                                (Sample.env "github/docs")
                                (Sample.remote
                                   (Sample.data Sample.fields
                                      (Sample.pullRequest Sample.threeFiles))
                                   Sample.firstPR false false (Ok tt))))
                      (Sample.data Sample.fields (Sample.pullRequest Sample.threeFiles))
                      {| datePostedID := "F_posted"; reviewDueDateID := "F_due";
                         statusID := "F_status"; featureID := "F_feature";
                         contributorTypeID := "F_ctype"; sizeTypeID := "F_size";
                         authorID := "F_author"; readyForReviewID := "O_ready";
                         hubberTypeID := "O_hubber"; docsMemberTypeID := "O_docs";
                         osContributorTypeID := "O_os"; sizeXS := "O_xs"; sizeS := "O_s";
                         sizeM := "O_m"; sizeL := "O_l" |}
                      "PVTI_9" "actions" "O_s" true "O_os"
                      eq_refl eq_refl eq_refl eq_refl eq_refl eq_refl)).
Defined.

(** * Further properties of the script *)

(** ** Sizes grow with the change *)

Ltac ltb_cases :=
  repeat match goal with
         | |- context [?a <? ?b] => destruct (Z.ltb_spec a b); try lia
         end.

(** X1.  The size never shrinks when the number of files and the number of
    changed lines grow: more of either gives the same bucket or a larger
    one. *)
Theorem size_monotone :
  forall numFiles numChanges numFiles' numChanges' : Z,
    numFiles <= numFiles' ->
    numChanges <= numChanges' ->
    (rank (sizeCategory numFiles numChanges) <= rank (sizeCategory numFiles' numChanges'))%nat.
Proof.
  intros n c n' c' Hn Hc. unfold sizeCategory, sizeOf.
  ltb_cases; cbn [andb rank]; lia.
Qed.

Lemma size_monotone_witness :
  (rank (sizeCategory 4 9) <= rank (sizeCategory 4 10))%nat.
Proof. apply (size_monotone 4 9 4 10); lia. Defined.

Lemma changes_app (nodes more : list FileNode) :
  changes (nodes ++ more) = changes nodes + changes more.
Proof.
  unfold changes. induction nodes as [| node nodes IH]; simpl; [reflexivity |].
  rewrite IH. lia.
Qed.

Lemma changes_nonneg (nodes : list FileNode) :
  Forall (fun node => 0 <= additions node /\ 0 <= deletions node) nodes ->
  0 <= changes nodes.
Proof.
  unfold changes. induction 1 as [| node nodes [Ha Hd] _ IH]; simpl; lia.
Qed.

(** X2.  A pull request does not get a smaller size from further changed
    files, as long as their additions and deletions are counts (not
    negative). *)
Theorem size_grows_with_files :
  forall nodes more : list FileNode,
    Forall (fun node => 0 <= additions node /\ 0 <= deletions node) more ->
    (rank (sizeTypeOf Size.XS Size.S Size.M Size.L nodes)
     <= rank (sizeTypeOf Size.XS Size.S Size.M Size.L (nodes ++ more)))%nat.
Proof.
  intros nodes more Hmore. unfold sizeTypeOf. cbv zeta.
  destruct (tally_counts nodes) as [-> ->].
  destruct (tally_counts (nodes ++ more)) as [-> ->].
  rewrite length_app, changes_app, Nat2Z.inj_add.
  pose proof (changes_nonneg more Hmore).
  apply (size_monotone _ _ _ _); lia.
Qed.

Lemma size_grows_with_files_witness :
  (rank (sizeTypeOf Size.XS Size.S Size.M Size.L [Sample.changed 4 4 "content/actions/b.md"])
   <= rank (sizeTypeOf Size.XS Size.S Size.M Size.L
              ([Sample.changed 4 4 "content/actions/b.md"]
               ++ [Sample.changed 30 2 "content/actions/a.md"])))%nat.
Proof.
  apply (size_grows_with_files [Sample.changed 4 4 "content/actions/b.md"]
                               [Sample.changed 30 2 "content/actions/a.md"]).
  repeat constructor; simpl; lia.
Defined.

(** ** Paths and features *)

Lemma rejoin_cons (sep c : ascii) (segment : string) (rest : list string) :
  rejoin sep (String c segment :: rest) = String c (rejoin sep (segment :: rest)).
Proof. destruct rest; reflexivity. Qed.

(** X3.  Splitting a path loses nothing: the segments contain no slash, there
    is one more of them than there are slashes, and put together around
    slashes they give the path back. *)
Theorem split_rejoin :
  forall (sep : ascii) (s : string),
    rejoin sep (Js.split sep s) = s /\
    Forall (fun segment => occurs sep segment = false) (Js.split sep s) /\
    List.length (Js.split sep s)
    = Datatypes.S (List.length (filter (Ascii.eqb sep) (list_ascii_of_string s))).
Proof.
  intros sep s. induction s as [| c rest (IHr & IHf & IHl)].
  - repeat split. repeat constructor.
  - cbn [Js.split list_ascii_of_string filter].
    rewrite (Ascii.eqb_sym sep c).
    destruct (Ascii.eqb c sep) eqn:E.
    + apply Ascii.eqb_eq in E. subst c. cbn [List.length]. repeat split.
      * destruct (Js.split sep rest) as [| segment segments] eqn:Es;
          [now apply split_nonempty in Es |].
        change (rejoin sep ("" :: segment :: segments))
          with ("" ++ String sep (rejoin sep (segment :: segments)))%string.
        now rewrite IHr.
      * constructor; [reflexivity | assumption].
      * now rewrite IHl.
    + destruct (Js.split sep rest) as [| segment segments] eqn:Es;
        [now apply split_nonempty in Es |].
      repeat split.
      * rewrite rejoin_cons. now rewrite IHr.
      * inversion IHf as [| ? ? Hseg Hrest]; subst. constructor; [| assumption].
        cbn [occurs]. now rewrite E, Hseg.
      * exact IHl.
Qed.

Lemma features_fold_app (nodes : list FileNode) (t : Tally) :
  exists more : Js.set,
    features (fold_left visit nodes t) = (features t ++ more)%list /\
    (List.length more <= List.length nodes)%nat.
Proof.
  revert t. induction nodes as [| node nodes IH]; intros t.
  - exists []. split; [now rewrite app_nil_r | reflexivity].
  - cbn [fold_left]. destruct (IH (visit t node)) as (more & Hm & Hl).
    rewrite Hm, features_visit.
    destruct (contentSegment node) as [v|].
    + unfold Js.add. destruct (Js.has (features t) v).
      * exists more. split; [reflexivity | cbn [List.length]; lia].
      * exists (v :: more). split; [now rewrite <- app_assoc | cbn [List.length]; lia].
    + exists more. split; [reflexivity | cbn [List.length]; lia].
Qed.

(** X4.  The features keep the order in which the files first name them:
    the features of a list of files extended by later files start with the
    features of the list; and there are never more features than files. *)
Theorem features_stable :
  forall nodes later : list FileNode,
    (exists more : Js.set,
        features (tally (nodes ++ later)) = (features (tally nodes) ++ more)%list /\
        (List.length more <= List.length later)%nat) /\
    (List.length (features (tally nodes)) <= List.length nodes)%nat.
Proof.
  intros nodes later. split.
  - unfold tally. rewrite fold_left_app. apply features_fold_app.
  - unfold tally. destruct (features_fold_app nodes
                              {| numFiles := 0; numChanges := 0; features := [] |})
      as (more & -> & Hl).
    exact Hl.
Qed.

(** X5.  A pull request none of whose files is under [content] has no
    feature: the set is empty and the feature string is the empty string. *)
Theorem no_content_no_feature :
  forall nodes : list FileNode,
    Forall outsideContent nodes ->
    features (tally nodes) = [] /\ featureOf nodes = "".
Proof.
  intros nodes Hout.
  assert (Hnil : features (tally nodes) = []).
  { destruct (features (tally nodes)) as [| v rest] eqn:E; [reflexivity |].
    assert (Hin : In v (features (tally nodes))) by (rewrite E; now left).
    unfold tally in Hin. apply features_fold_In in Hin.
    destruct Hin as [[] | (node & Hnode & Hseg)].
    apply contentSegment_iff in Hseg. destruct Hseg as [Hfirst _].
    rewrite Forall_forall in Hout. now apply Hout in Hnode. }
  split; [exact Hnil |]. unfold featureOf. now rewrite Hnil.
Qed.

Lemma no_content_no_feature_witness :
  featureOf [Sample.changed 1 0 "data/x.yml"; Sample.changed 2 2 "assets/content/a.png"] = "".
Proof.
  apply (no_content_no_feature
           [Sample.changed 1 0 "data/x.yml"; Sample.changed 2 2 "assets/content/a.png"]).
  repeat constructor; discriminate.
Defined.

(** ** How a run ends *)

Ltac in_concrete H :=
  cbn [In] in H; repeat (destruct H as [H | H]); try contradiction; try discriminate H.

Ltac answers_in H :=
  unfold authorOf in *; cbn [fst snd] in *; cbv beta iota in *;
  repeat match goal with
         | E : ?x = Ok _ |- _ => rewrite E in H
         | E : ?x = Err _ |- _ => rewrite E in H
         end.

(** X6.  A run stops at the first call that fails: a call the other side
    did not answer is the last call of the run, the run ends with an error and
    the process exits with 1. *)
Theorem failed_call_is_last :
  forall (env : Env) (remote : Remote) (c : Call),
    In c (calls (fst (main env remote start))) ->
    answered remote c = false ->
    (exists earlier, calls (fst (main env remote start)) = (earlier ++ [c])%list) /\
    (exists e, snd (run env remote start) = Err e) /\
    snd (main env remote start) = 1.
Proof.
  intros env remote c Hin Hans.
  destruct (main_run env remote) as (Hcalls & _ & Hexit).
  rewrite Hcalls in *. rewrite Hexit. clear Hcalls Hexit.
  destruct (run env remote start) as [w r] eqn:Hrun. run_cases Hrun.
  all: in_concrete Hin; subst c; cbn [answered succeeded] in Hans; answers_in Hans;
    try discriminate Hans.
  all: split; [| split; [eexists; reflexivity | reflexivity]].
  all: match goal with |- exists earlier, ?l = _ => exists (removelast l); reflexivity end.
Qed.

Lemma failed_call_is_last_witness :
  (exists earlier,
      calls (fst (main (Sample.env "github/docs") Faults.noOrg start))
      = (earlier ++ [IsGitHubOrgMember (Some "octocat")])%list) /\
  (exists e, snd (run (Sample.env "github/docs") Faults.noOrg start) = Err e) /\
  snd (main (Sample.env "github/docs") Faults.noOrg start) = 1.
Proof.
  apply (failed_call_is_last (Sample.env "github/docs") Faults.noOrg
                             (IsGitHubOrgMember (Some "octocat"))).
  - vm_compute. tauto.
  - reflexivity.
Defined.

Ltac find_update :=
  do 2 eexists; split;
  [ cbn [In]; repeat first [left; reflexivity | right]
  | cbn [answered succeeded]; unfold authorOf in *; cbn [fst snd] in *; cbv beta iota in *;
    rewrite_answers; reflexivity ].

(** X7.  The process exits with 0 or with 1; with 0 exactly when the update
    was issued and answered, and then the console holds the two progress
    lines, naming the item that [run] returns; with 1 the console ends with
    the line of the error [run] ended with, and the closing progress line is
    never printed. *)
Theorem exit_status :
  forall (env : Env) (remote : Remote),
    let w := fst (main env remote start) in
    let status := snd (main env remote start) in
    (status = 0 <->
     exists m v, In (UpdateFields m v) (calls w) /\ answered remote (UpdateFields m v) = true) /\
    (status = 0 \/ status = 1) /\
    (status = 0 ->
     exists newItemID,
       snd (run env remote start) = Ok newItemID /\
       console w = [ Message ("Populating fields for item: " ++ newItemID);
                     Message "Done populating fields for item" ]) /\
    (status = 1 ->
     exists e earlier,
       snd (run env remote start) = Err e /\
       console w = (earlier ++ [ErrorLine e])%list /\
       ~ In (Message "Done populating fields for item") (console w)).
Proof.
  intros env remote w status. subst w status. unfold main.
  destruct (run env remote start) as [w r] eqn:Hrun. run_cases Hrun.
  all: repeat match goal with |- _ /\ _ => split | |- _ <-> _ => split end.
  all: try (intros H; discriminate H).
  all: try (intros _; reflexivity).
  all: try (intros _; find_update).
  all: try (left; reflexivity).
  all: try (right; reflexivity).
  all: try (intros (m & v & Hin & Hans); exfalso; in_concrete Hin;
            injection Hin as <- <-; cbn [answered succeeded] in Hans; answers_in Hans;
            discriminate Hans).
  all: try (intros _; eexists; split; reflexivity).
  all: intros _; eexists;
    match goal with |- exists earlier, _ /\ ?l = _ /\ _ => exists (removelast l) end;
    split; [reflexivity | split; [reflexivity | intros H; in_concrete H]].
Qed.

(** X8.  However a run ends, the project holds no item of it (exit 1, no
    add-item mutation answered), or the one item with no field set (exit 1, no
    update answered), or the one item with the seven fields of the update set
    (exit 0): never an item with some of its fields. *)
Theorem board_all_or_nothing :
  forall (env : Env) (remote : Remote),
    let w := fst (main env remote start) in
    let status := snd (main env remote start) in
    (items w = [] /\ status = 1 /\
     forall c, In c (calls w) -> kind c = 1%nat -> answered remote c = false) \/
    (exists newItemID,
        items w = [unset newItemID (ITEM_NODE_ID env)] /\ status = 1 /\
        forall m v, In (UpdateFields m v) (calls w) ->
                    answered remote (UpdateFields m v) = false) \/
    (exists newItemID m v,
        items w = [ {| projectItemId := newItemID; content := ITEM_NODE_ID env;
                       fieldValues := assignments m v |} ] /\
        status = 0 /\
        In (UpdateFields m v) (calls w) /\
        List.length (assignments m v) = 7%nat).
Proof.
  intros env remote w status. subst w status. unfold main.
  destruct (run env remote start) as [w r] eqn:Hrun. run_cases Hrun.
  all: first
    [ left; split; [reflexivity | split; [reflexivity |]];
      intros c Hin Hk; in_concrete Hin; subst c; try discriminate Hk;
      cbn [answered succeeded]; rewrite_answers; reflexivity
    | right; left; eexists; split; [reflexivity | split; [reflexivity |]];
      intros m v Hin; in_concrete Hin; injection Hin as <- <-;
      cbn [answered succeeded]; unfold authorOf in *; cbn [fst snd] in *;
      cbv beta iota in *; rewrite_answers; reflexivity
    | right; right; do 3 eexists; cbn [map]; unfold assign;
      cbn [projectItemId mutationItem generateUpdateProjectV2ItemFieldMutation];
      rewrite String.eqb_refl;
      split; [reflexivity | split; [reflexivity | split; [| reflexivity]]];
      cbn [In]; repeat first [left; reflexivity | right] ].
Qed.

(** X9.  No call but the first query is issued unless the first query
    answered and all fifteen lookups of names succeeded; the add-item mutation
    is about the node of the environment and the project the query
    returned. *)
Theorem mutations_follow_lookups :
  forall (env : Env) (remote : Remote) (c : Call),
    In c (calls (fst (main env remote start))) ->
    (1 <= kind c)%nat ->
    exists data ids,
      board remote (ITEM_NODE_ID env) (ORGANIZATION env) (PROJECT_NUMBER env) = Ok data /\
      lookupIDs data = Ok ids /\
      (forall name, In name requiredFields -> exists id, findFieldID name data = Ok id) /\
      (forall o f, In (o, f) requiredOptions -> exists id, findSingleSelectID o f data = Ok id) /\
      (forall node project,
          c = AddItemToProject node project ->
          node = ITEM_NODE_ID env /\ project = projectID data).
Proof.
  intros env remote c Hin Hk.
  destruct (main_run env remote) as (Hcalls & _ & _). rewrite Hcalls in Hin. clear Hcalls.
  destruct (run env remote start) as [w r] eqn:Hrun. run_cases Hrun.
  all: in_concrete Hin; subst c; cbn [kind] in Hk; try lia.
  all: match goal with
       | Hb : board _ _ _ _ = Ok ?D, Hl : lookupIDs ?D = Ok ?I |- _ =>
           exists D, I; destruct (lookupIDs_present D I Hl) as [Hf Ho];
           split; [reflexivity | split; [assumption | split; [| split]]]
       end.
  all: try (intros name Hname; apply findFieldID_present; now apply Hf).
  all: try (intros o f Hof; apply findSingleSelectID_present; now apply Ho).
  all: intros node project Heq; try discriminate Heq; injection Heq as <- <-; now split.
Qed.

Lemma mutations_follow_lookups_witness :
  exists data ids,
    board Faults.allFine (Some "PR_7") (Some "github") (Some "2936") = Ok data /\
    lookupIDs data = Ok ids /\
    (forall name, In name requiredFields -> exists id, findFieldID name data = Ok id) /\
    (forall o f, In (o, f) requiredOptions -> exists id, findSingleSelectID o f data = Ok id) /\
    (forall node project,
        AddItemToProject (Some "PR_7") "PVT_1" = AddItemToProject node project ->
        node = Some "PR_7" /\ project = projectID data).
Proof.
  apply (mutations_follow_lookups (Sample.env "github/docs") Faults.allFine
                                  (AddItemToProject (Some "PR_7") "PVT_1")).
  - vm_compute. tauto.
  - cbn [kind]. lia.
Defined.

(** ** Failures, one by one *)

(** X10.  When the first query fails, nothing else is called, nothing is
    added to the project, the error is printed and the process exits
    with 1. *)
Theorem board_query_failed :
  forall (env : Env) (remote : Remote) (e : Error),
    board remote (ITEM_NODE_ID env) (ORGANIZATION env) (PROJECT_NUMBER env) = Err e ->
    main env remote start
    = ({| calls := [BoardQuery (ITEM_NODE_ID env) (ORGANIZATION env) (PROJECT_NUMBER env)];
          console := [ErrorLine e]; items := [] |}, 1).
Proof.
  intros env remote e H. unfold main, run, bind, query, await. rewrite H. reflexivity.
Qed.

Lemma board_query_failed_witness :
  main (Sample.env "github/docs") Faults.noBoard start
  = ({| calls := [BoardQuery (Some "PR_7") (Some "github") (Some "2936")];
        console := [ErrorLine RequestFailed]; items := [] |}, 1).
Proof.
  exact (board_query_failed (Sample.env "github/docs") Faults.noBoard RequestFailed eq_refl).
Defined.

(** X11.  When the add-item mutation fails, the run stops there: no
    membership lookup, no update, no item on the project, the error printed
    and exit 1. *)
Theorem add_item_failed :
  forall (env : Env) (remote : Remote) (data : Data) (ids : IDs) (e : Error),
    board remote (ITEM_NODE_ID env) (ORGANIZATION env) (PROJECT_NUMBER env) = Ok data ->
    lookupIDs data = Ok ids ->
    addItem remote (ITEM_NODE_ID env) (projectID data) = Err e ->
    main env remote start
    = ({| calls := [ BoardQuery (ITEM_NODE_ID env) (ORGANIZATION env) (PROJECT_NUMBER env);
                     AddItemToProject (ITEM_NODE_ID env) (projectID data) ];
          console := [ErrorLine e]; items := [] |}, 1).
Proof.
  intros env remote data ids e Hb Hl Ha.
  unfold main, run, addItemToProject, bind, query, await, lift.
  rewrite Hb. run_simpl. rewrite Hl. cbv beta iota. rewrite Ha. reflexivity.
Qed.

Lemma add_item_failed_witness :
  main (Sample.env "github/docs") Faults.noAdd start
  = ({| calls := [ BoardQuery (Some "PR_7") (Some "github") (Some "2936");
                   AddItemToProject (Some "PR_7") "PVT_1" ];
        console := [ErrorLine RequestFailed]; items := [] |}, 1).
Proof.
  destruct (lookupIDs Faults.issueData) as [ids | e] eqn:Hl; [| discriminate Hl].
  exact (add_item_failed (Sample.env "github/docs") Faults.noAdd Faults.issueData ids
                         RequestFailed eq_refl Hl eq_refl).
Defined.

(** X12.  A pull request that arrives without its [files] makes the read of
    [files.nodes] throw after the item was added: the item stays on the
    project with no field set, no update is issued and the process exits
    with 1. *)
Theorem pull_request_without_files :
  forall (env : Env) (remote : Remote) (data : Data) (ids : IDs) (newItemID : string),
    board remote (ITEM_NODE_ID env) (ORGANIZATION env) (PROJECT_NUMBER env) = Ok data ->
    lookupIDs data = Ok ids ->
    addItem remote (ITEM_NODE_ID env) (projectID data) = Ok newItemID ->
    __typename (item data) = "PullRequest" ->
    files (item data) = None ->
    main env remote start
    = ({| calls := [ BoardQuery (ITEM_NODE_ID env) (ORGANIZATION env) (PROJECT_NUMBER env);
                     AddItemToProject (ITEM_NODE_ID env) (projectID data) ];
          console := [ErrorLine TypeError];
          items := [unset newItemID (ITEM_NODE_ID env)] |}, 1).
Proof.
  intros env remote data ids nid Hb Hl Ha Ht Hf.
  unfold main, run, addItemToProject, featureAndSize, derive, deriveFrom,
    bind, query, await, lift, throw.
  rewrite Hb. run_simpl. rewrite Hl. cbv beta iota. rewrite Ha. run_simpl.
  rewrite Ht, Hf. reflexivity.
Qed.

Lemma pull_request_without_files_witness :
  main (Sample.env "github/docs") Faults.noFiles start
  = ({| calls := [ BoardQuery (Some "PR_7") (Some "github") (Some "2936");
                   AddItemToProject (Some "PR_7") "PVT_1" ];
        console := [ErrorLine TypeError];
        items := [unset "PVTI_9" (Some "PR_7")] |}, 1).
Proof.
  destruct (lookupIDs (Sample.data Sample.fields {| __typename := "PullRequest"; files := None |}))
    as [ids | e] eqn:Hl; [| discriminate Hl].
  exact (pull_request_without_files (Sample.env "github/docs") Faults.noFiles _ ids "PVTI_9"
                                    eq_refl Hl eq_refl eq_refl eq_refl).
Defined.

(** X13.  In a repository other than [github/docs] (or with none set) the
    contribution history is never queried, and an update carries the login as
    the author and a turnaround of 2. *)
Theorem other_repositories :
  forall (env : Env) (remote : Remote),
    REPO env <> Some "github/docs" ->
    (forall login, ~ In (ContributionsQuery login) (calls (fst (main env remote start)))) /\
    (forall m v,
        In (UpdateFields m v) (calls (fst (main env remote start))) ->
        author m = AUTHOR_LOGIN env /\ turnaround m = 2).
Proof.
  intros env remote Hrepo.
  assert (Hos : isOpenSourceRepo env = false).
  { destruct (isOpenSourceRepo env) eqn:E; [| reflexivity].
    apply isOpenSourceRepo_iff in E. contradiction. }
  destruct (main_run env remote) as (Hcalls & _ & _). rewrite Hcalls. clear Hcalls. split.
  - intros login Hin.
    destruct (run env remote start) as [w r] eqn:Hrun. run_cases Hrun.
    all: try congruence.
    all: in_concrete Hin.
  - intros m v Hin. apply run_filed in Hin.
    destruct Hin as (data & ids & nid & ft & ct & w1 & w2 & _ & _ & _ & _ & Hft & _ & Hm & _).
    rewrite firstTimeContributor_answer, Hos in Hft. injection Hft as <-.
    rewrite Hm. unfold turnaroundOf. rewrite Hos. now split.
Qed.

Lemma other_repositories_witness :
  author {| mutationItem := "PVTI_9"; author := Some "octocat"; turnaround := 2;
            feature := ""; generated := 100 |} = Some "octocat" /\
  2 = 2.
Proof.
  refine (proj2 (other_repositories (Sample.env "github/docs-internal") Faults.allFine _)
                {| mutationItem := "PVTI_9"; author := Some "octocat"; turnaround := 2;
                   feature := ""; generated := 100 |}
                {| Variables.project := "PVT_1"; Variables.statusID := "F_status";
                   Variables.statusValueID := "O_ready";
                   Variables.datePostedID := "F_posted"; Variables.reviewDueDateID := "F_due";
                   Variables.contributorTypeID := "F_ctype";
                   Variables.contributorType := "O_hubber";
                   Variables.sizeTypeID := "F_size"; Variables.sizeType := "O_s";
                   Variables.featureID := "F_feature"; Variables.authorID := "F_author" |} _).
  - discriminate.
  - vm_compute. tauto.
Defined.
